(** * ACL connection manager (gd/hci/acl_manager.cc)

    A shallow embedding of the ACL manager of the Bluetooth host stack:
    the per-connection L2CAP reassembler, the ingress router, the HCI event
    handlers, the connection life cycle and the per-connection proxy
    operations, together with the properties the specification states
    about them.

    Conventions.  C++ integers are [Z] with the conversions written out
    ([size_t] is 64 bits wide, [int] is 32 bits wide, two's complement).
    Nullable pointers and [OnceCallback]s are [option]s.  [ASSERT] and the
    dereference of a null pointer or of an end iterator end the handler in
    a [Crash].  What a handler hands to another party (an HCI command, a
    task posted on a handler) is appended to a log kept in the state. *)

From Stdlib Require Import ZArith Lia List Bool Strings.Byte.
From stdpp Require Import base decidable countable gmap list sorting.
Import ListNotations.
Local Open Scope Z_scope.

(** ** Integer conversions *)

Module Cxx.

Definition size_t_of (x : Z) : Z := x mod 2 ^ 64.

(** Conversion of an unsigned value to [int]: reduction modulo 2^32,
    read as two's complement. *)
Definition int_of (x : Z) : Z :=
  let y := x mod 2 ^ 32 in
  if y <? 2 ^ 31 then y else y - 2 ^ 32.

Definition uint16_of (x : Z) : Z := x mod 2 ^ 16.

(** [a - b] computed in [size_t]. *)
Definition size_t_sub (a b : Z) : Z := size_t_of (size_t_of a - size_t_of b).

(** [std::vector::size], [PacketView::size], [std::queue::size]. *)
Definition size {A} (l : list A) : Z := Z.of_nat (length l).

End Cxx.

(** ** Outcome of a handler *)

Inductive fault : Type :=
| AssertFailed          (* ASSERT(...) or ASSERT_LOG(...) did not hold *)
| NullHandler           (* ->Post on a handler pointer that is nullptr *)
| EndIterator.          (* ->second on acl_connections_.end() *)

Inductive outcome (A : Type) : Type :=
| Done (a : A)
| Crash (f : fault).
Arguments Done {A} a.
Arguments Crash {A} f.

Definition bind {A B} (m : outcome A) (k : A -> outcome B) : outcome B :=
  match m with
  | Done a => k a
  | Crash f => Crash f
  end.

Notation "'do' x <- m ; k" := (bind m (fun x => k))
  (at level 10, x name, m at level 100, k at level 200).

Definition ASSERT {A} (b : bool) (k : outcome A) : outcome A :=
  if b then k else Crash AssertFailed.


(** ** Packets *)

(** Modelled from the spec: the declaration of [PacketBoundaryFlag] is
    generated from the packet description and is not part of the sources;
    the three flags are the ones the specification lists. *)
Inductive PacketBoundaryFlag : Type :=
| FIRST_NON_AUTOMATICALLY_FLUSHABLE
| CONTINUING_FRAGMENT
| FIRST_AUTOMATICALLY_FLUSHABLE.

Record AclPacketView : Type := {
  IsValid : bool;
  GetHandle : Z;
  GetPacketBoundaryFlag : PacketBoundaryFlag;
  GetPayload : list byte
}.

Definition kQualcommDebugHandle : Z := 0xedc.
Definition kMaxQueuedPacketsPerConnection : Z := 10.
Definition kL2capBasicFrameHeaderSize : Z := 4.

(** [l2cap_payload.at(i)] as the [int] the byte is promoted to. *)
Definition at_ (payload : list byte) (i : nat) : Z :=
  Z.of_N (Byte.to_N (nth i payload x00)).

Definition GetL2capPduSize (packet : AclPacketView) : Z :=
  let l2cap_payload := GetPayload packet in
  if Cxx.size l2cap_payload <? kL2capBasicFrameHeaderSize then 0
  else Cxx.uint16_of (Z.shiftl (at_ l2cap_payload 1) 8 + at_ l2cap_payload 0).

(** ** Addresses *)

(** The six bytes of a device address, as the 48-bit number they spell. *)
Definition Address : Type := Z.

(** Modelled from the spec: [AddressType] is declared with the packet
    descriptions, which are not part of the sources; the four types are the
    ones the specification lists. *)
Inductive AddressType : Type :=
| PUBLIC_DEVICE_ADDRESS
| RANDOM_DEVICE_ADDRESS
| PUBLIC_IDENTITY_ADDRESS
| RANDOM_IDENTITY_ADDRESS.

Record AddressWithType : Type := {
  GetAddress : Address;
  GetAddressType : AddressType
}.

#[global] Instance AddressType_eq_dec : EqDecision AddressType.
Proof. solve_decision. Defined.

#[global] Instance AddressWithType_eq_dec : EqDecision AddressWithType.
Proof. solve_decision. Defined.

Definition AddressType_code (t : AddressType) : Z :=
  match t with
  | PUBLIC_DEVICE_ADDRESS => 0
  | RANDOM_DEVICE_ADDRESS => 1
  | PUBLIC_IDENTITY_ADDRESS => 2
  | RANDOM_IDENTITY_ADDRESS => 3
  end.

Definition AddressType_of_code (z : Z) : AddressType :=
  if z =? 0 then PUBLIC_DEVICE_ADDRESS
  else if z =? 1 then RANDOM_DEVICE_ADDRESS
  else if z =? 2 then PUBLIC_IDENTITY_ADDRESS
  else RANDOM_IDENTITY_ADDRESS.

#[global] Program Instance AddressWithType_countable : Countable AddressWithType :=
  inj_countable'
    (fun a => (GetAddress a, AddressType_code (GetAddressType a)))
    (fun p => {| GetAddress := fst p; GetAddressType := AddressType_of_code (snd p) |})
    _.
Next Obligation. intros [a []]; reflexivity. Qed.

(** ** Per-connection record *)

(** Modelled from the spec: [ErrorCode] is declared with the packet
    descriptions, which are not part of the sources; the codes are the
    one-byte status codes of the Bluetooth Core Specification, of which the
    manager only tells [SUCCESS] from the others. *)
Definition ErrorCode : Type := Z.
Definition SUCCESS : ErrorCode := 0.

(** Identities of the objects pointers refer to. *)
Definition Handler : Type := nat.
Definition CallbacksPtr : Type := nat.
Definition OnceCallback : Type := nat.

Record acl_connection : Type := {
  address_with_type_ : AddressWithType;
  is_disconnected_ : bool;
  disconnect_reason_ : ErrorCode;
  command_complete_handler_ : option Handler;
  disconnect_handler_ : option Handler;
  command_complete_callbacks_ : option CallbacksPtr;
  le_command_complete_handler_ : option Handler;
  le_command_complete_callbacks_ : option CallbacksPtr;
  on_disconnect_callback_ : option OnceCallback;
  on_connection_update_complete_callback_ : option OnceCallback;
  on_connection_update_complete_callback_handler_ : option Handler;
  recombination_stage_ : list byte;
  remaining_sdu_continuation_packet_size_ : Z;
  enqueue_registered_ : bool;
  incoming_queue_ : list (list byte)
}.

(** The constructor [acl_connection(address_with_type, handler)] with the
    member initialisers of the struct. *)
Definition new_acl_connection (address_with_type : AddressWithType) : acl_connection := {|
  address_with_type_ := address_with_type;
  is_disconnected_ := false;
  disconnect_reason_ := 0;
  command_complete_handler_ := None;
  disconnect_handler_ := None;
  command_complete_callbacks_ := None;
  le_command_complete_handler_ := None;
  le_command_complete_callbacks_ := None;
  on_disconnect_callback_ := None;
  on_connection_update_complete_callback_ := None;
  on_connection_update_complete_callback_handler_ := None;
  recombination_stage_ := [];
  remaining_sdu_continuation_packet_size_ := 0;
  enqueue_registered_ := false;
  incoming_queue_ := []
|}.

(** Assignments to the fields of a connection record. *)
Definition set_recombination (c : acl_connection) (stage : list byte) (remaining : Z) : acl_connection :=
  Build_acl_connection
    (address_with_type_ c) (is_disconnected_ c) (disconnect_reason_ c)
    (command_complete_handler_ c) (disconnect_handler_ c) (command_complete_callbacks_ c)
    (le_command_complete_handler_ c) (le_command_complete_callbacks_ c)
    (on_disconnect_callback_ c)
    (on_connection_update_complete_callback_ c) (on_connection_update_complete_callback_handler_ c)
    stage remaining
    (enqueue_registered_ c) (incoming_queue_ c).

Definition set_incoming (c : acl_connection) (registered : bool) (queue : list (list byte)) : acl_connection :=
  Build_acl_connection
    (address_with_type_ c) (is_disconnected_ c) (disconnect_reason_ c)
    (command_complete_handler_ c) (disconnect_handler_ c) (command_complete_callbacks_ c)
    (le_command_complete_handler_ c) (le_command_complete_callbacks_ c)
    (on_disconnect_callback_ c)
    (on_connection_update_complete_callback_ c) (on_connection_update_complete_callback_handler_ c)
    (recombination_stage_ c) (remaining_sdu_continuation_packet_size_ c)
    registered queue.

Definition set_disconnect (c : acl_connection) (disconnected : bool) (reason : ErrorCode)
    (handler : option Handler) (callback : option OnceCallback) : acl_connection :=
  Build_acl_connection
    (address_with_type_ c) disconnected reason
    (command_complete_handler_ c) handler (command_complete_callbacks_ c)
    (le_command_complete_handler_ c) (le_command_complete_callbacks_ c)
    callback
    (on_connection_update_complete_callback_ c) (on_connection_update_complete_callback_handler_ c)
    (recombination_stage_ c) (remaining_sdu_continuation_packet_size_ c)
    (enqueue_registered_ c) (incoming_queue_ c).

Definition set_command_complete (c : acl_connection)
    (handler : option Handler) (callbacks : option CallbacksPtr) : acl_connection :=
  Build_acl_connection
    (address_with_type_ c) (is_disconnected_ c) (disconnect_reason_ c)
    handler (disconnect_handler_ c) callbacks
    (le_command_complete_handler_ c) (le_command_complete_callbacks_ c)
    (on_disconnect_callback_ c)
    (on_connection_update_complete_callback_ c) (on_connection_update_complete_callback_handler_ c)
    (recombination_stage_ c) (remaining_sdu_continuation_packet_size_ c)
    (enqueue_registered_ c) (incoming_queue_ c).

Definition set_le_command_complete (c : acl_connection)
    (handler : option Handler) (callbacks : option CallbacksPtr) : acl_connection :=
  Build_acl_connection
    (address_with_type_ c) (is_disconnected_ c) (disconnect_reason_ c)
    (command_complete_handler_ c) (disconnect_handler_ c) (command_complete_callbacks_ c)
    handler callbacks
    (on_disconnect_callback_ c)
    (on_connection_update_complete_callback_ c) (on_connection_update_complete_callback_handler_ c)
    (recombination_stage_ c) (remaining_sdu_continuation_packet_size_ c)
    (enqueue_registered_ c) (incoming_queue_ c).

Definition set_connection_update (c : acl_connection)
    (callback : option OnceCallback) (handler : option Handler) : acl_connection :=
  Build_acl_connection
    (address_with_type_ c) (is_disconnected_ c) (disconnect_reason_ c)
    (command_complete_handler_ c) (disconnect_handler_ c) (command_complete_callbacks_ c)
    (le_command_complete_handler_ c) (le_command_complete_callbacks_ c)
    (on_disconnect_callback_ c)
    callback handler
    (recombination_stage_ c) (remaining_sdu_continuation_packet_size_ c)
    (enqueue_registered_ c) (incoming_queue_ c).

(** ** The reassembler *)

(** The tail of [on_incoming_packet]: the congestion check, the push and
    the registration of the enqueue callback. *)
Definition deliver (c : acl_connection) (payload : list byte) : acl_connection :=
  if kMaxQueuedPacketsPerConnection <? Cxx.size (incoming_queue_ c) then c
  else set_incoming c true (incoming_queue_ c ++ [payload]).

Definition on_incoming_packet (c : acl_connection) (packet : AclPacketView) : acl_connection :=
  let payload := GetPayload packet in
  let payload_size := Cxx.size payload in
  match GetPacketBoundaryFlag packet with
  | FIRST_NON_AUTOMATICALLY_FLUSHABLE => c
  | CONTINUING_FRAGMENT =>
      if Cxx.size_t_of (remaining_sdu_continuation_packet_size_ c) <? payload_size then
        set_recombination c [] 0
      else
        let remaining :=
          Cxx.int_of (Cxx.size_t_sub (remaining_sdu_continuation_packet_size_ c) payload_size) in
        let stage := recombination_stage_ c ++ payload in
        if negb (remaining =? 0) then set_recombination c stage remaining
        else deliver (set_recombination c [] remaining) stage
  | FIRST_AUTOMATICALLY_FLUSHABLE =>
      let l2cap_pdu_size := GetL2capPduSize packet in
      let remaining :=
        Cxx.int_of (Cxx.size_t_sub l2cap_pdu_size
                      (Cxx.size_t_sub payload_size kL2capBasicFrameHeaderSize)) in
      if 0 <? remaining then set_recombination c payload remaining
      else deliver (set_recombination c (recombination_stage_ c) remaining) payload
  end.

(** [on_incoming_data_ready]: the consumer side of the inbound queue.
    [front] and [pop] on an empty queue are not defined. *)
Definition on_incoming_data_ready (c : acl_connection) : option (list byte * acl_connection) :=
  match incoming_queue_ c with
  | [] => None
  | packet :: rest =>
      Some (packet, set_incoming c (if rest is [] then false else enqueue_registered_ c) rest)
  end.

(** ** Fragment sequences *)

Definition is_first (p : AclPacketView) : bool :=
  match GetPacketBoundaryFlag p with FIRST_AUTOMATICALLY_FLUSHABLE => true | _ => false end.

Definition is_continuing (p : AclPacketView) : bool :=
  match GetPacketBoundaryFlag p with CONTINUING_FRAGMENT => true | _ => false end.

(** The length field of the L2CAP basic header: 16 bits, little endian,
    at offset 0 of the payload. *)
Definition l2cap_length (payload : list byte) : Z :=
  at_ payload 0 + 2 ^ 8 * at_ payload 1.






Definition idle (c : acl_connection) : Prop :=
  recombination_stage_ c = [] /\ remaining_sdu_continuation_packet_size_ c = 0.

Definition fragment (flag : PacketBoundaryFlag) (payload : list byte) : AclPacketView :=
  {| IsValid := true; GetHandle := 0x40; GetPacketBoundaryFlag := flag; GetPayload := payload |}.

(** ** Views of HCI events

    A view is what [XView::Create(packet)] yields: whether the packet
    parses as an X, and the fields the getters read.  The getters of an
    invalid view are never called by a handler that checked [IsValid]. *)

(** Modelled from the spec: [Role] is declared with the packet
    descriptions; the specification names its two values. *)
Inductive Role : Type := MASTER | SLAVE.

Module ConnectionCompleteView.
Record t : Type := { IsValid : bool; GetStatus : ErrorCode; GetConnectionHandle : Z; GetBdAddr : Address }.
End ConnectionCompleteView.

Module DisconnectionCompleteView.
Record t : Type := { IsValid : bool; GetStatus : ErrorCode; GetConnectionHandle : Z; GetReason : ErrorCode }.
End DisconnectionCompleteView.

Module ConnectionRequestView.
Record t : Type := { IsValid : bool; GetBdAddr : Address; GetClassOfDevice : Z }.
End ConnectionRequestView.

Module LeConnectionCompleteView.
Record t : Type := {
  IsValid : bool; GetStatus : ErrorCode; GetConnectionHandle : Z; GetRole : Role;
  GetPeerAddressType : AddressType; GetPeerAddress : Address }.
End LeConnectionCompleteView.

Module LeEnhancedConnectionCompleteView.
Record t : Type := {
  IsValid : bool; GetStatus : ErrorCode; GetConnectionHandle : Z; GetRole : Role;
  GetPeerAddressType : AddressType; GetPeerAddress : Address;
  GetPeerResolvablePrivateAddress : Address }.
End LeEnhancedConnectionCompleteView.

Module LeConnectionUpdateCompleteView.
Record t : Type := { IsValid : bool; GetStatus : ErrorCode; GetConnectionHandle : Z }.
End LeConnectionUpdateCompleteView.

Module ConnectionPacketTypeChangedView.
Record t : Type := { IsValid : bool; GetStatus : ErrorCode; GetConnectionHandle : Z; GetPacketType : Z }.
End ConnectionPacketTypeChangedView.

Module AuthenticationCompleteView.
Record t : Type := { IsValid : bool; GetStatus : ErrorCode; GetConnectionHandle : Z }.
End AuthenticationCompleteView.

Module ReadClockOffsetCompleteView.
Record t : Type := { IsValid : bool; GetStatus : ErrorCode; GetConnectionHandle : Z; GetClockOffset : Z }.
End ReadClockOffsetCompleteView.

Module ModeChangeView.
Record t : Type := {
  IsValid : bool; GetStatus : ErrorCode; GetConnectionHandle : Z; GetCurrentMode : Z; GetInterval : Z }.
End ModeChangeView.

Module QosSetupCompleteView.
Record t : Type := {
  IsValid : bool; GetStatus : ErrorCode; GetConnectionHandle : Z; GetServiceType : Z;
  GetTokenRate : Z; GetPeakBandwidth : Z; GetLatency : Z; GetDelayVariation : Z }.
End QosSetupCompleteView.

Module RoleChangeView.
Record t : Type := { IsValid : bool; GetStatus : ErrorCode; GetBdAddr : Address; GetNewRole : Role }.
End RoleChangeView.

Module FlowSpecificationCompleteView.
Record t : Type := {
  IsValid : bool; GetStatus : ErrorCode; GetConnectionHandle : Z; GetFlowDirection : Z;
  GetServiceType : Z; GetTokenRate : Z; GetTokenBucketSize : Z; GetPeakBandwidth : Z;
  GetAccessLatency : Z }.
End FlowSpecificationCompleteView.

Module FlushOccurredView.
Record t : Type := { IsValid : bool; GetConnectionHandle : Z }.
End FlushOccurredView.

(** READ_REMOTE_SUPPORTED_FEATURES_COMPLETE, READ_REMOTE_EXTENDED_FEATURES_COMPLETE,
    READ_REMOTE_VERSION_INFORMATION_COMPLETE and LINK_SUPERVISION_TIMEOUT_CHANGED:
    their handlers read nothing but [IsValid]. *)
Module UnimplementedView.
Record t : Type := { IsValid : bool }.
End UnimplementedView.

(** ** What the manager hands to other parties *)

(** The enumerators the manager passes to the command builders. *)
Inductive PageScanRepetitionMode : Type := R1.
Inductive ClockOffsetValid : Type := INVALID.
Inductive CreateConnectionRoleSwitch : Type := ALLOW_ROLE_SWITCH.
Inductive AcceptConnectionRequestRole : Type := BECOME_MASTER.
Inductive RejectConnectionReason : Type := LIMITED_RESOURCES | UNACCEPTABLE_BD_ADDR.

(** The command packets given to [hci_layer_->EnqueueCommand]. *)
Inductive CommandBuilder : Type :=
| CreateConnectionBuilder (address : Address) (packet_type : Z)
    (page_scan_repetition_mode : PageScanRepetitionMode) (clock_offset : Z)
    (clock_offset_valid : ClockOffsetValid) (allow_role_switch : CreateConnectionRoleSwitch)
| CreateConnectionCancelBuilder (address : Address)
| AcceptConnectionRequestBuilder (address : Address) (role : AcceptConnectionRequestRole)
| RejectConnectionRequestBuilder (address : Address) (reason : RejectConnectionReason)
| ReadDefaultLinkPolicySettingsBuilder
| DisconnectBuilder (handle reason : Z)
| ChangeConnectionPacketTypeBuilder (handle packet_type : Z)
| AuthenticationRequestedBuilder (handle : Z)
| SetConnectionEncryptionBuilder (handle enable : Z)
| ChangeConnectionLinkKeyBuilder (handle : Z)
| ReadClockOffsetBuilder (handle : Z)
| HoldModeBuilder (handle max_interval min_interval : Z)
| SniffModeBuilder (handle max_interval min_interval attempt timeout : Z)
| ExitSniffModeBuilder (handle : Z)
| QosSetupBuilder (handle service_type token_rate peak_bandwidth latency delay_variation : Z)
| RoleDiscoveryBuilder (handle : Z)
| ReadLinkPolicySettingsBuilder (handle : Z)
| WriteLinkPolicySettingsBuilder (handle link_policy_settings : Z)
| FlowSpecificationBuilder
    (handle flow_direction service_type token_rate token_bucket_size peak_bandwidth access_latency : Z)
| SniffSubratingBuilder (handle maximum_latency minimum_remote_timeout minimum_local_timeout : Z)
| FlushBuilder (handle : Z)
| ReadAutomaticFlushTimeoutBuilder (handle : Z)
| WriteAutomaticFlushTimeoutBuilder (handle flush_timeout : Z)
| ReadTransmitPowerLevelBuilder (handle type : Z)
| ReadLinkSupervisionTimeoutBuilder (handle : Z)
| WriteLinkSupervisionTimeoutBuilder (handle link_supervision_timeout : Z)
| ReadFailedContactCounterBuilder (handle : Z)
| ResetFailedContactCounterBuilder (handle : Z)
| ReadLinkQualityBuilder (handle : Z)
| ReadAfhChannelMapBuilder (handle : Z)
| ReadRssiBuilder (handle : Z)
| ReadRemoteVersionInformationBuilder (handle : Z)
| ReadRemoteSupportedFeaturesBuilder (handle : Z)
| ReadRemoteExtendedFeaturesBuilder (handle page_number : Z)
| ReadClockBuilder (handle which_clock : Z)
| LeConnectionUpdateBuilder
    (handle conn_interval_min conn_interval_max conn_latency supervision_timeout
     min_ce_length max_ce_length : Z).

(** The member functions bound by [BindOnce(&impl::f, Unretained(this), ...)]
    and posted on the manager's own [handler_]. *)
Module Bound.
Inductive t : Type :=
| handle_disconnect (handle reason : Z)
| handle_change_connection_packet_type (handle packet_type : Z)
| handle_authentication_requested (handle : Z)
| handle_set_connection_encryption (handle enable : Z)
| handle_change_connection_link_key (handle : Z)
| handle_read_clock_offset (handle : Z)
| handle_hold_mode (handle max_interval min_interval : Z)
| handle_sniff_mode (handle max_interval min_interval attempt timeout : Z)
| handle_exit_sniff_mode (handle : Z)
| handle_qos_setup_mode (handle service_type token_rate peak_bandwidth latency delay_variation : Z)
| handle_role_discovery (handle : Z)
| handle_read_link_policy_settings (handle : Z)
| handle_write_link_policy_settings (handle link_policy_settings : Z)
| handle_flow_specification
    (handle flow_direction service_type token_rate token_bucket_size peak_bandwidth access_latency : Z)
| handle_sniff_subrating (handle maximum_latency minimum_remote_timeout minimum_local_timeout : Z)
| handle_flush (handle : Z)
| handle_read_automatic_flush_timeout (handle : Z)
| handle_write_automatic_flush_timeout (handle flush_timeout : Z)
| handle_read_transmit_power_level (handle type : Z)
| handle_read_link_supervision_timeout (handle : Z)
| handle_write_link_supervision_timeout (handle link_supervision_timeout : Z)
| handle_read_failed_contact_counter (handle : Z)
| handle_reset_failed_contact_counter (handle : Z)
| handle_read_link_quality (handle : Z)
| handle_afh_channel_map (handle : Z)
| handle_read_rssi (handle : Z)
| handle_read_remote_version_information (handle : Z)
| handle_read_remote_supported_features (handle : Z)
| handle_read_remote_extended_features (handle : Z)
| handle_read_clock (handle which_clock : Z)
| handle_le_connection_update
    (handle conn_interval_min conn_interval_max conn_latency supervision_timeout
     min_ce_length max_ce_length : Z)
| cleanup (handle : Z)
| create_connection (address : Address)
| cancel_connect (address : Address)
| handle_register_callbacks (callbacks : CallbacksPtr) (handler : Handler)
| handle_register_le_callbacks (callbacks : CallbacksPtr) (handler : Handler).
End Bound.

(** The calls posted on the HCI handler for the round-robin scheduler. *)
Inductive RoundRobinScheduler : Type :=
| Register (handle : Z)
| Unregister (handle : Z)
| SetDisconnect (handle : Z).

(** The connection proxies given to the upper layer. *)
Record ClassicAclConnection : Type := { classic_handle_ : Z; classic_address_ : Address; classic_role_ : Role }.
Record LeAclConnection : Type := { le_handle_ : Z; le_address_with_type_ : AddressWithType; le_role_ : Role }.

Inductive ManagementCallback : Type :=
| OnConnectionPacketTypeChanged (packet_type : Z)
| OnAuthenticationComplete
| OnReadClockOffsetComplete (clock_offset : Z)
| OnModeChange (current_mode interval : Z)
| OnQosSetupComplete (service_type token_rate peak_bandwidth latency delay_variation : Z)
| OnRoleChange (new_role : Role)
| OnFlowSpecificationComplete
    (flow_direction service_type token_rate token_bucket_size peak_bandwidth access_latency : Z)
| OnFlushOccurred.

(** The closures posted on a handler of the upper layer; [callbacks] is the
    object the member function is bound to. *)
Inductive Closure : Type :=
| OnConnectSuccess (callbacks : option CallbacksPtr) (connection : ClassicAclConnection)
| OnConnectFail (callbacks : option CallbacksPtr) (address : Address) (status : ErrorCode)
| OnLeConnectSuccess (callbacks : option CallbacksPtr) (address_with_type : AddressWithType)
    (connection : LeAclConnection)
| OnLeConnectFail (callbacks : option CallbacksPtr) (address_with_type : AddressWithType)
    (status : ErrorCode)
| ConnectionManagementCallbacks (callbacks : option CallbacksPtr) (call : ManagementCallback)
| RunOnce (callback : option OnceCallback) (argument : ErrorCode).

(** ** The manager *)

Record impl : Type := {
  client_callbacks_ : option CallbacksPtr;
  client_handler_ : option Handler;
  le_client_callbacks_ : option CallbacksPtr;
  le_client_handler_ : option Handler;
  acl_connections_ : gmap Z acl_connection;
  connecting_ : gset Address;
  connecting_le_ : gset AddressWithType;
  pending_outgoing_connections_ : list (Address * CommandBuilder);
  default_link_policy_settings_ : Z;
  (* logs of what left the manager, oldest first *)
  hci_commands : list CommandBuilder;               (* hci_layer_->EnqueueCommand *)
  handler_tasks : list Bound.t;                     (* handler_->Post *)
  hci_handler_tasks : list RoundRobinScheduler;     (* hci_layer_->GetHciHandler()->Post *)
  upper_layer_posts : list (Handler * Closure)      (* ->Post on a handler of the upper layer *)
}.

Definition set_client (st : impl) (callbacks : option CallbacksPtr) (handler : option Handler) : impl :=
  Build_impl callbacks handler (le_client_callbacks_ st) (le_client_handler_ st)
    (acl_connections_ st) (connecting_ st) (connecting_le_ st) (pending_outgoing_connections_ st)
    (default_link_policy_settings_ st)
    (hci_commands st) (handler_tasks st) (hci_handler_tasks st) (upper_layer_posts st).

Definition set_le_client (st : impl) (callbacks : option CallbacksPtr) (handler : option Handler) : impl :=
  Build_impl (client_callbacks_ st) (client_handler_ st) callbacks handler
    (acl_connections_ st) (connecting_ st) (connecting_le_ st) (pending_outgoing_connections_ st)
    (default_link_policy_settings_ st)
    (hci_commands st) (handler_tasks st) (hci_handler_tasks st) (upper_layer_posts st).

Definition set_acl_connections (st : impl) (connections : gmap Z acl_connection) : impl :=
  Build_impl (client_callbacks_ st) (client_handler_ st) (le_client_callbacks_ st) (le_client_handler_ st)
    connections (connecting_ st) (connecting_le_ st) (pending_outgoing_connections_ st)
    (default_link_policy_settings_ st)
    (hci_commands st) (handler_tasks st) (hci_handler_tasks st) (upper_layer_posts st).

Definition set_connecting (st : impl) (connecting : gset Address) : impl :=
  Build_impl (client_callbacks_ st) (client_handler_ st) (le_client_callbacks_ st) (le_client_handler_ st)
    (acl_connections_ st) connecting (connecting_le_ st) (pending_outgoing_connections_ st)
    (default_link_policy_settings_ st)
    (hci_commands st) (handler_tasks st) (hci_handler_tasks st) (upper_layer_posts st).

Definition set_connecting_le (st : impl) (connecting_le : gset AddressWithType) : impl :=
  Build_impl (client_callbacks_ st) (client_handler_ st) (le_client_callbacks_ st) (le_client_handler_ st)
    (acl_connections_ st) (connecting_ st) connecting_le (pending_outgoing_connections_ st)
    (default_link_policy_settings_ st)
    (hci_commands st) (handler_tasks st) (hci_handler_tasks st) (upper_layer_posts st).

Definition set_pending_outgoing_connections (st : impl) (pending : list (Address * CommandBuilder)) : impl :=
  Build_impl (client_callbacks_ st) (client_handler_ st) (le_client_callbacks_ st) (le_client_handler_ st)
    (acl_connections_ st) (connecting_ st) (connecting_le_ st) pending
    (default_link_policy_settings_ st)
    (hci_commands st) (handler_tasks st) (hci_handler_tasks st) (upper_layer_posts st).

Definition set_default_link_policy_settings (st : impl) (settings : Z) : impl :=
  Build_impl (client_callbacks_ st) (client_handler_ st) (le_client_callbacks_ st) (le_client_handler_ st)
    (acl_connections_ st) (connecting_ st) (connecting_le_ st) (pending_outgoing_connections_ st)
    settings
    (hci_commands st) (handler_tasks st) (hci_handler_tasks st) (upper_layer_posts st).

(** [hci_layer_->EnqueueCommand(packet, reply, handler_)]. *)
Definition EnqueueCommand (st : impl) (packet : CommandBuilder) : impl :=
  Build_impl (client_callbacks_ st) (client_handler_ st) (le_client_callbacks_ st) (le_client_handler_ st)
    (acl_connections_ st) (connecting_ st) (connecting_le_ st) (pending_outgoing_connections_ st)
    (default_link_policy_settings_ st)
    (hci_commands st ++ [packet]) (handler_tasks st) (hci_handler_tasks st) (upper_layer_posts st).

(** [handler_->Post(BindOnce(&impl::f, ...))]: the manager's own handler,
    set in [Start]. *)
Definition handler_Post (st : impl) (task : Bound.t) : impl :=
  Build_impl (client_callbacks_ st) (client_handler_ st) (le_client_callbacks_ st) (le_client_handler_ st)
    (acl_connections_ st) (connecting_ st) (connecting_le_ st) (pending_outgoing_connections_ st)
    (default_link_policy_settings_ st)
    (hci_commands st) (handler_tasks st ++ [task]) (hci_handler_tasks st) (upper_layer_posts st).

(** [hci_layer_->GetHciHandler()->Post(BindOnce(&RoundRobinScheduler::f, ...))]. *)
Definition hci_handler_Post (st : impl) (call : RoundRobinScheduler) : impl :=
  Build_impl (client_callbacks_ st) (client_handler_ st) (le_client_callbacks_ st) (le_client_handler_ st)
    (acl_connections_ st) (connecting_ st) (connecting_le_ st) (pending_outgoing_connections_ st)
    (default_link_policy_settings_ st)
    (hci_commands st) (handler_tasks st) (hci_handler_tasks st ++ [call]) (upper_layer_posts st).

(** [handler->Post(closure)] on a handler pointer of the upper layer, which
    is [nullptr] until the upper layer registers. *)
Definition Post (handler : option Handler) (closure : Closure) (st : impl) : outcome impl :=
  match handler with
  | None => Crash NullHandler
  | Some h =>
      Done (Build_impl (client_callbacks_ st) (client_handler_ st)
              (le_client_callbacks_ st) (le_client_handler_ st)
              (acl_connections_ st) (connecting_ st) (connecting_le_ st)
              (pending_outgoing_connections_ st) (default_link_policy_settings_ st)
              (hci_commands st) (handler_tasks st) (hci_handler_tasks st)
              (upper_layer_posts st ++ [(h, closure)]))
  end.

(** [impl::Start]: every member is as its initialiser leaves it, and
    [read_default_link_policy_settings] has enqueued its command. *)
Definition Start : impl := {|
  client_callbacks_ := None;
  client_handler_ := None;
  le_client_callbacks_ := None;
  le_client_handler_ := None;
  acl_connections_ := ∅;
  connecting_ := ∅;
  connecting_le_ := ∅;
  pending_outgoing_connections_ := [];
  default_link_policy_settings_ := 0;
  hci_commands := [ReadDefaultLinkPolicySettingsBuilder];
  handler_tasks := [];
  hci_handler_tasks := [];
  upper_layer_posts := []
|}.

(** [should_accept_connection_], bound in [Start] and never rebound. *)
Definition should_accept_connection_ (address : Address) (class_of_device : Z) : bool := true.

(** [acl_connections_.count(handle)]. *)
Definition count (st : impl) (handle : Z) : Z :=
  match acl_connections_ st !! handle with Some _ => 1 | None => 0 end.

(** [acl_connections_.find(handle)->second] without a check against [end()]. *)
Definition find_second (st : impl) (handle : Z) : outcome acl_connection :=
  match acl_connections_ st !! handle with
  | Some connection => Done connection
  | None => Crash EndIterator
  end.

Definition check_and_get_connection (st : impl) (handle : Z) : outcome acl_connection :=
  match acl_connections_ st !! handle with
  | Some connection => Done connection
  | None => Crash AssertFailed
  end.

(** Writing through the reference [check_and_get_connection] or [find]
    returned. *)
Definition store_connection (st : impl) (handle : Z) (connection : acl_connection) : impl :=
  set_acl_connections st (<[handle := connection]> (acl_connections_ st)).

(** [acl_connections_.emplace(handle, acl_connection(address_with_type, handler_))]:
    no effect when the key is present. *)
Definition emplace (st : impl) (handle : Z) (address_with_type : AddressWithType) : impl :=
  match acl_connections_ st !! handle with
  | Some _ => st
  | None => store_connection st handle (new_acl_connection address_with_type)
  end.

(** The connection records in the order [std::map] iterates them. *)
Definition handle_le (x y : Z * acl_connection) : Prop := fst x <= fst y.

#[global] Instance handle_le_dec : RelDecision handle_le.
Proof. intros x y. unfold handle_le. apply _. Defined.

Definition connections_in_order (st : impl) : list (Z * acl_connection) :=
  merge_sort handle_le (map_to_list (acl_connections_ st)).

Definition is_classic_link_already_connected (st : impl) (address : Address) : bool :=
  existsb (fun connection => GetAddress (address_with_type_ (snd connection)) =? address)
    (connections_in_order st).

(** ** Ingress router *)

(** [packet] is what [hci_queue_end_->TryDequeue()] returned. *)
Definition dequeue_and_route_acl_packet_to_connection (st : impl) (packet : option AclPacketView)
  : outcome impl :=
  match packet with
  | None => Crash AssertFailed
  | Some packet =>
      if negb (IsValid packet) then Done st
      else
        let handle := GetHandle packet in
        if handle =? kQualcommDebugHandle then Done st
        else
          match acl_connections_ st !! handle with
          | None => Done st
          | Some connection =>
              Done (store_connection st handle (on_incoming_packet connection packet))
          end
  end.

(** ** Connection life cycle *)

Definition reject_connection (st : impl) (builder : CommandBuilder) : impl :=
  EnqueueCommand st builder.

Definition accept_connection (st : impl) (address : Address) : impl :=
  let role := BECOME_MASTER in
  EnqueueCommand st (AcceptConnectionRequestBuilder address role).

Definition on_incoming_connection (st : impl) (request : ConnectionRequestView.t) : outcome impl :=
  ASSERT (ConnectionRequestView.IsValid request) (
    let address := ConnectionRequestView.GetBdAddr request in
    match client_callbacks_ st with
    | None =>
        let reason := LIMITED_RESOURCES in
        Done (reject_connection st (RejectConnectionRequestBuilder address reason))
    | Some _ =>
        let st := set_connecting st ({[address]} ∪ connecting_ st) in
        if is_classic_link_already_connected st address then
          let reason := UNACCEPTABLE_BD_ADDR in
          Done (reject_connection st (RejectConnectionRequestBuilder address reason))
        else if should_accept_connection_ address (ConnectionRequestView.GetClassOfDevice request) then
          Done (accept_connection st address)
        else
          let reason := LIMITED_RESOURCES in
          Done (reject_connection st (RejectConnectionRequestBuilder address reason))
    end).

Definition on_classic_connection_complete (st : impl) (address : Address) : impl :=
  if bool_decide (address ∈ connecting_ st)
  then set_connecting st (connecting_ st ∖ {[address]})
  else st.

Definition on_common_le_connection_complete (st : impl) (address_with_type : AddressWithType) : impl :=
  if bool_decide (address_with_type ∈ connecting_le_ st)
  then set_connecting_le st (connecting_le_ st ∖ {[address_with_type]})
  else st.

Definition on_le_connection_complete (st : impl) (connection_complete : LeConnectionCompleteView.t)
  : outcome impl :=
  ASSERT (LeConnectionCompleteView.IsValid connection_complete) (
    let status := LeConnectionCompleteView.GetStatus connection_complete in
    let address := LeConnectionCompleteView.GetPeerAddress connection_complete in
    let peer_address_type := LeConnectionCompleteView.GetPeerAddressType connection_complete in
    let address_with_type := {| GetAddress := address; GetAddressType := peer_address_type |} in
    let st := on_common_le_connection_complete st address_with_type in
    if negb (status =? SUCCESS) then
      Post (le_client_handler_ st) (OnLeConnectFail (le_client_callbacks_ st) address_with_type status) st
    else
      let handle := LeConnectionCompleteView.GetConnectionHandle connection_complete in
      ASSERT (count st handle =? 0) (
        let st := emplace st handle address_with_type in
        do connection <- check_and_get_connection st handle;
        let st := hci_handler_Post st (Register handle) in
        let role := LeConnectionCompleteView.GetRole connection_complete in
        let connection_proxy :=
          {| le_handle_ := handle; le_address_with_type_ := address_with_type; le_role_ := role |} in
        Post (le_client_handler_ st)
          (OnLeConnectSuccess (le_client_callbacks_ st) address_with_type connection_proxy) st)).

(** Modelled from the spec: [Address::IsEmpty] is declared with [Address],
    outside the sources; the specification speaks of a resolvable private
    address that is present, and the address that is not is the one whose
    six bytes are zero. *)
Definition IsEmpty (address : Address) : bool := address =? 0.

Definition on_le_enhanced_connection_complete (st : impl)
    (connection_complete : LeEnhancedConnectionCompleteView.t) : outcome impl :=
  ASSERT (LeEnhancedConnectionCompleteView.IsValid connection_complete) (
    let status := LeEnhancedConnectionCompleteView.GetStatus connection_complete in
    let address := LeEnhancedConnectionCompleteView.GetPeerAddress connection_complete in
    let peer_address_type := LeEnhancedConnectionCompleteView.GetPeerAddressType connection_complete in
    let peer_resolvable_address :=
      LeEnhancedConnectionCompleteView.GetPeerResolvablePrivateAddress connection_complete in
    let reporting_address_with_type :=
      if negb (IsEmpty peer_resolvable_address)
      then {| GetAddress := peer_resolvable_address; GetAddressType := RANDOM_DEVICE_ADDRESS |}
      else {| GetAddress := address; GetAddressType := peer_address_type |} in
    let st := on_common_le_connection_complete st reporting_address_with_type in
    if negb (status =? SUCCESS) then
      Post (le_client_handler_ st)
        (OnLeConnectFail (le_client_callbacks_ st) reporting_address_with_type status) st
    else
      let handle := LeEnhancedConnectionCompleteView.GetConnectionHandle connection_complete in
      ASSERT (count st handle =? 0) (
        let st := emplace st handle reporting_address_with_type in
        do connection <- check_and_get_connection st handle;
        let st := hci_handler_Post st (Register handle) in
        let role := LeEnhancedConnectionCompleteView.GetRole connection_complete in
        let connection_proxy :=
          {| le_handle_ := handle; le_address_with_type_ := reporting_address_with_type;
             le_role_ := role |} in
        Post (le_client_handler_ st)
          (OnLeConnectSuccess (le_client_callbacks_ st) reporting_address_with_type connection_proxy)
          st)).

(** The [while (!pending_outgoing_connections_.empty())] loop of
    [on_connection_complete]: entries are popped until one is issued. *)
Fixpoint issue_pending_outgoing_connection (st : impl) (pending : list (Address * CommandBuilder))
  : impl :=
  match pending with
  | [] => set_pending_outgoing_connections st []
  | create_connection_packet_and_address :: rest =>
      if negb (is_classic_link_already_connected st (fst create_connection_packet_and_address)) then
        let st := set_pending_outgoing_connections st rest in
        let st := set_connecting st ({[fst create_connection_packet_and_address]} ∪ connecting_ st) in
        EnqueueCommand st (snd create_connection_packet_and_address)
      else issue_pending_outgoing_connection st rest
  end.

Definition on_connection_complete (st : impl) (connection_complete : ConnectionCompleteView.t)
  : outcome impl :=
  ASSERT (ConnectionCompleteView.IsValid connection_complete) (
    let status := ConnectionCompleteView.GetStatus connection_complete in
    let address := ConnectionCompleteView.GetBdAddr connection_complete in
    let st := on_classic_connection_complete st address in
    if negb (status =? SUCCESS) then
      Post (client_handler_ st) (OnConnectFail (client_callbacks_ st) address status) st
    else
      let handle := ConnectionCompleteView.GetConnectionHandle connection_complete in
      ASSERT (count st handle =? 0) (
        let st :=
          emplace st handle {| GetAddress := address; GetAddressType := PUBLIC_DEVICE_ADDRESS |} in
        do connection <- check_and_get_connection st handle;
        let st := hci_handler_Post st (Register handle) in
        let connection_proxy :=
          {| classic_handle_ := handle; classic_address_ := address; classic_role_ := MASTER |} in
        do st <- Post (client_handler_ st) (OnConnectSuccess (client_callbacks_ st) connection_proxy) st;
        Done (issue_pending_outgoing_connection st (pending_outgoing_connections_ st)))).

(** [acl_connection::call_disconnect_callback]; moving the callback into the
    posted closure leaves the slot null. *)
Definition call_disconnect_callback (st : impl) (connection : acl_connection)
  : outcome (impl * acl_connection) :=
  do st <- Post (disconnect_handler_ connection)
             (RunOnce (on_disconnect_callback_ connection) (disconnect_reason_ connection)) st;
  Done (st, set_disconnect connection (is_disconnected_ connection) (disconnect_reason_ connection)
              (disconnect_handler_ connection) None).

Definition on_disconnection_complete (st : impl) (disconnection_complete : DisconnectionCompleteView.t)
  : outcome impl :=
  ASSERT (DisconnectionCompleteView.IsValid disconnection_complete) (
    let handle := DisconnectionCompleteView.GetConnectionHandle disconnection_complete in
    let status := DisconnectionCompleteView.GetStatus disconnection_complete in
    if status =? SUCCESS then
      ASSERT (count st handle =? 1) (
        do acl_connection <- find_second st handle;
        let st := hci_handler_Post st (SetDisconnect handle) in
        let acl_connection :=
          set_disconnect acl_connection true
            (DisconnectionCompleteView.GetReason disconnection_complete)
            (disconnect_handler_ acl_connection) (on_disconnect_callback_ acl_connection) in
        do called <- call_disconnect_callback st acl_connection;
        Done (store_connection (fst called) handle (snd called)))
    else Done st).

(** ** Event handlers for a live connection *)

(** The lines every such handler ends with:
    [auto& acl_connection = acl_connections_.find(handle)->second;
     if (acl_connection.command_complete_handler_ != nullptr)
       acl_connection.command_complete_handler_->Post(...)]. *)
Definition post_to_command_complete_handler (st : impl) (handle : Z) (call : ManagementCallback)
  : outcome impl :=
  do acl_connection <- find_second st handle;
  match command_complete_handler_ acl_connection with
  | None => Done st
  | Some _ =>
      Post (command_complete_handler_ acl_connection)
        (ConnectionManagementCallbacks (command_complete_callbacks_ acl_connection) call) st
  end.

Definition on_connection_packet_type_changed (st : impl)
    (packet_type_changed : ConnectionPacketTypeChangedView.t) : outcome impl :=
  if negb (ConnectionPacketTypeChangedView.IsValid packet_type_changed) then Done st
  else if negb (ConnectionPacketTypeChangedView.GetStatus packet_type_changed =? SUCCESS) then Done st
  else
    let handle := ConnectionPacketTypeChangedView.GetConnectionHandle packet_type_changed in
    post_to_command_complete_handler st handle
      (OnConnectionPacketTypeChanged (ConnectionPacketTypeChangedView.GetPacketType packet_type_changed)).

Definition on_authentication_complete (st : impl)
    (authentication_complete : AuthenticationCompleteView.t) : outcome impl :=
  if negb (AuthenticationCompleteView.IsValid authentication_complete) then Done st
  else if negb (AuthenticationCompleteView.GetStatus authentication_complete =? SUCCESS) then Done st
  else
    let handle := AuthenticationCompleteView.GetConnectionHandle authentication_complete in
    post_to_command_complete_handler st handle OnAuthenticationComplete.

Definition on_read_clock_offset_complete (st : impl)
    (complete_view : ReadClockOffsetCompleteView.t) : outcome impl :=
  if negb (ReadClockOffsetCompleteView.IsValid complete_view) then Done st
  else if negb (ReadClockOffsetCompleteView.GetStatus complete_view =? SUCCESS) then Done st
  else
    let handle := ReadClockOffsetCompleteView.GetConnectionHandle complete_view in
    post_to_command_complete_handler st handle
      (OnReadClockOffsetComplete (ReadClockOffsetCompleteView.GetClockOffset complete_view)).

Definition on_mode_change (st : impl) (mode_change_view : ModeChangeView.t) : outcome impl :=
  if negb (ModeChangeView.IsValid mode_change_view) then Done st
  else if negb (ModeChangeView.GetStatus mode_change_view =? SUCCESS) then Done st
  else
    let handle := ModeChangeView.GetConnectionHandle mode_change_view in
    post_to_command_complete_handler st handle
      (OnModeChange (ModeChangeView.GetCurrentMode mode_change_view)
         (ModeChangeView.GetInterval mode_change_view)).

Definition on_qos_setup_complete (st : impl) (complete_view : QosSetupCompleteView.t) : outcome impl :=
  if negb (QosSetupCompleteView.IsValid complete_view) then Done st
  else if negb (QosSetupCompleteView.GetStatus complete_view =? SUCCESS) then Done st
  else
    let handle := QosSetupCompleteView.GetConnectionHandle complete_view in
    post_to_command_complete_handler st handle
      (OnQosSetupComplete (QosSetupCompleteView.GetServiceType complete_view)
         (QosSetupCompleteView.GetTokenRate complete_view)
         (QosSetupCompleteView.GetPeakBandwidth complete_view)
         (QosSetupCompleteView.GetLatency complete_view)
         (QosSetupCompleteView.GetDelayVariation complete_view)).

(** The [for (auto& connection_pair : acl_connections_)] loop of
    [on_role_change]; the handler pointer is used without a null check. *)
Fixpoint post_role_change (st : impl) (connections : list (Z * acl_connection))
    (bd_addr : Address) (new_role : Role) : outcome impl :=
  match connections with
  | [] => Done st
  | connection_pair :: rest =>
      if GetAddress (address_with_type_ (snd connection_pair)) =? bd_addr then
        do st <- Post (command_complete_handler_ (snd connection_pair))
                   (ConnectionManagementCallbacks
                      (command_complete_callbacks_ (snd connection_pair)) (OnRoleChange new_role)) st;
        post_role_change st rest bd_addr new_role
      else post_role_change st rest bd_addr new_role
  end.

Definition on_role_change (st : impl) (role_change_view : RoleChangeView.t) : outcome impl :=
  if negb (RoleChangeView.IsValid role_change_view) then Done st
  else if negb (RoleChangeView.GetStatus role_change_view =? SUCCESS) then Done st
  else
    let bd_addr := RoleChangeView.GetBdAddr role_change_view in
    let new_role := RoleChangeView.GetNewRole role_change_view in
    post_role_change st (connections_in_order st) bd_addr new_role.

Definition on_flow_specification_complete (st : impl)
    (complete_view : FlowSpecificationCompleteView.t) : outcome impl :=
  if negb (FlowSpecificationCompleteView.IsValid complete_view) then Done st
  else if negb (FlowSpecificationCompleteView.GetStatus complete_view =? SUCCESS) then Done st
  else
    let handle := FlowSpecificationCompleteView.GetConnectionHandle complete_view in
    post_to_command_complete_handler st handle
      (OnFlowSpecificationComplete (FlowSpecificationCompleteView.GetFlowDirection complete_view)
         (FlowSpecificationCompleteView.GetServiceType complete_view)
         (FlowSpecificationCompleteView.GetTokenRate complete_view)
         (FlowSpecificationCompleteView.GetTokenBucketSize complete_view)
         (FlowSpecificationCompleteView.GetPeakBandwidth complete_view)
         (FlowSpecificationCompleteView.GetAccessLatency complete_view)).

Definition on_flush_occurred (st : impl) (flush_occurred_view : FlushOccurredView.t) : outcome impl :=
  if negb (FlushOccurredView.IsValid flush_occurred_view) then Done st
  else
    let handle := FlushOccurredView.GetConnectionHandle flush_occurred_view in
    post_to_command_complete_handler st handle OnFlushOccurred.

Definition on_read_remote_version_information_complete (st : impl) (view : UnimplementedView.t)
  : outcome impl :=
  ASSERT (UnimplementedView.IsValid view) (Done st).

Definition on_read_remote_supported_features_complete (st : impl) (view : UnimplementedView.t)
  : outcome impl :=
  ASSERT (UnimplementedView.IsValid view) (Done st).

Definition on_read_remote_extended_features_complete (st : impl) (view : UnimplementedView.t)
  : outcome impl :=
  ASSERT (UnimplementedView.IsValid view) (Done st).

Definition on_link_supervision_timeout_changed (st : impl) (view : UnimplementedView.t)
  : outcome impl :=
  ASSERT (UnimplementedView.IsValid view) (Done st).

Definition on_le_connection_update_complete (st : impl)
    (complete_view : LeConnectionUpdateCompleteView.t) : outcome impl :=
  if negb (LeConnectionUpdateCompleteView.IsValid complete_view) then Done st
  else if negb (LeConnectionUpdateCompleteView.GetStatus complete_view =? SUCCESS) then Done st
  else
    let handle := LeConnectionUpdateCompleteView.GetConnectionHandle complete_view in
    match acl_connections_ st !! handle with
    | None => Done st
    | Some connection =>
        if is_disconnected_ connection then Done st
        else
          match on_connection_update_complete_callback_ connection with
          | None => Done st
          | Some _ =>
              do st <- Post (on_connection_update_complete_callback_handler_ connection)
                         (RunOnce (on_connection_update_complete_callback_ connection)
                            (LeConnectionUpdateCompleteView.GetStatus complete_view)) st;
              Done (store_connection st handle (set_connection_update connection None None))
          end
    end.

(** ** Everything the controller can send *)

Inductive ControllerInput : Type :=
| AclPacket (packet : AclPacketView)
| CONNECTION_COMPLETE (view : ConnectionCompleteView.t)
| DISCONNECTION_COMPLETE (view : DisconnectionCompleteView.t)
| CONNECTION_REQUEST (view : ConnectionRequestView.t)
| LE_CONNECTION_COMPLETE (view : LeConnectionCompleteView.t)
| LE_ENHANCED_CONNECTION_COMPLETE (view : LeEnhancedConnectionCompleteView.t)
| LE_CONNECTION_UPDATE_COMPLETE (view : LeConnectionUpdateCompleteView.t)
| CONNECTION_PACKET_TYPE_CHANGED (view : ConnectionPacketTypeChangedView.t)
| AUTHENTICATION_COMPLETE (view : AuthenticationCompleteView.t)
| READ_CLOCK_OFFSET_COMPLETE (view : ReadClockOffsetCompleteView.t)
| MODE_CHANGE (view : ModeChangeView.t)
| QOS_SETUP_COMPLETE (view : QosSetupCompleteView.t)
| ROLE_CHANGE (view : RoleChangeView.t)
| FLOW_SPECIFICATION_COMPLETE (view : FlowSpecificationCompleteView.t)
| FLUSH_OCCURRED (view : FlushOccurredView.t)
| READ_REMOTE_SUPPORTED_FEATURES_COMPLETE (view : UnimplementedView.t)
| READ_REMOTE_EXTENDED_FEATURES_COMPLETE (view : UnimplementedView.t)
| READ_REMOTE_VERSION_INFORMATION_COMPLETE (view : UnimplementedView.t)
| LINK_SUPERVISION_TIMEOUT_CHANGED (view : UnimplementedView.t).

(** The dispatch [Start] sets up with [RegisterDequeue],
    [RegisterEventHandler] and [RegisterLeEventHandler]. *)
Definition on_controller_input (st : impl) (input : ControllerInput) : outcome impl :=
  match input with
  | AclPacket packet => dequeue_and_route_acl_packet_to_connection st (Some packet)
  | CONNECTION_COMPLETE view => on_connection_complete st view
  | DISCONNECTION_COMPLETE view => on_disconnection_complete st view
  | CONNECTION_REQUEST view => on_incoming_connection st view
  | LE_CONNECTION_COMPLETE view => on_le_connection_complete st view
  | LE_ENHANCED_CONNECTION_COMPLETE view => on_le_enhanced_connection_complete st view
  | LE_CONNECTION_UPDATE_COMPLETE view => on_le_connection_update_complete st view
  | CONNECTION_PACKET_TYPE_CHANGED view => on_connection_packet_type_changed st view
  | AUTHENTICATION_COMPLETE view => on_authentication_complete st view
  | READ_CLOCK_OFFSET_COMPLETE view => on_read_clock_offset_complete st view
  | MODE_CHANGE view => on_mode_change st view
  | QOS_SETUP_COMPLETE view => on_qos_setup_complete st view
  | ROLE_CHANGE view => on_role_change st view
  | FLOW_SPECIFICATION_COMPLETE view => on_flow_specification_complete st view
  | FLUSH_OCCURRED view => on_flush_occurred st view
  | READ_REMOTE_SUPPORTED_FEATURES_COMPLETE view => on_read_remote_supported_features_complete st view
  | READ_REMOTE_EXTENDED_FEATURES_COMPLETE view => on_read_remote_extended_features_complete st view
  | READ_REMOTE_VERSION_INFORMATION_COMPLETE view => on_read_remote_version_information_complete st view
  | LINK_SUPERVISION_TIMEOUT_CHANGED view => on_link_supervision_timeout_changed st view
  end.

(** ** Outgoing connections *)

Definition create_connection (st : impl) (address : Address) : outcome impl :=
  let packet_type := Z.lor 0x4408 0x8810 in
  let page_scan_repetition_mode := R1 in
  let clock_offset := 0 in
  let clock_offset_valid := INVALID in
  let allow_role_switch := ALLOW_ROLE_SWITCH in
  ASSERT (bool_decide (client_callbacks_ st <> None)) (
    let packet :=
      CreateConnectionBuilder address packet_type page_scan_repetition_mode clock_offset
        clock_offset_valid allow_role_switch in
    if bool_decide (connecting_ st = ∅) then
      if is_classic_link_already_connected st address then Done st
      else
        let st := set_connecting st ({[address]} ∪ connecting_ st) in
        Done (EnqueueCommand st packet)
    else
      Done (set_pending_outgoing_connections st (pending_outgoing_connections_ st ++ [(address, packet)]))).

Definition cancel_connect (st : impl) (address : Address) : impl :=
  if bool_decide (address ∈ connecting_ st)
  then EnqueueCommand st (CreateConnectionCancelBuilder address)
  else st.

(** ** The tasks the proxy operations post *)

Definition handle_disconnect (st : impl) (handle reason : Z) : outcome impl :=
  ASSERT (count st handle =? 1) (Done (EnqueueCommand st (DisconnectBuilder handle reason))).

Definition handle_change_connection_packet_type (st : impl) (handle packet_type : Z) : outcome impl :=
  ASSERT (count st handle =? 1)
    (Done (EnqueueCommand st (ChangeConnectionPacketTypeBuilder handle packet_type))).

Definition cleanup (st : impl) (handle : Z) : outcome impl :=
  ASSERT (count st handle =? 1) (Done (set_acl_connections st (delete handle (acl_connections_ st)))).

Definition handle_register_callbacks (st : impl) (callbacks : CallbacksPtr) (handler : Handler)
  : outcome impl :=
  ASSERT (bool_decide (client_callbacks_ st = None)) (
  ASSERT (bool_decide (client_handler_ st = None)) (
    Done (set_client st (Some callbacks) (Some handler)))).

Definition handle_register_le_callbacks (st : impl) (callbacks : CallbacksPtr) (handler : Handler)
  : outcome impl :=
  ASSERT (bool_decide (le_client_callbacks_ st = None)) (
  ASSERT (bool_decide (le_client_handler_ st = None)) (
    Done (set_le_client st (Some callbacks) (Some handler)))).

(** Running a task the manager's handler holds.  The [handle_*] functions
    not spelled out above build their command and enqueue it, nothing
    else. *)
Definition run (st : impl) (task : Bound.t) : outcome impl :=
  match task with
  | Bound.handle_disconnect handle reason => handle_disconnect st handle reason
  | Bound.handle_change_connection_packet_type handle packet_type =>
      handle_change_connection_packet_type st handle packet_type
  | Bound.handle_authentication_requested handle =>
      Done (EnqueueCommand st (AuthenticationRequestedBuilder handle))
  | Bound.handle_set_connection_encryption handle enable =>
      Done (EnqueueCommand st (SetConnectionEncryptionBuilder handle enable))
  | Bound.handle_change_connection_link_key handle =>
      Done (EnqueueCommand st (ChangeConnectionLinkKeyBuilder handle))
  | Bound.handle_read_clock_offset handle =>
      Done (EnqueueCommand st (ReadClockOffsetBuilder handle))
  | Bound.handle_hold_mode handle max_interval min_interval =>
      Done (EnqueueCommand st (HoldModeBuilder handle max_interval min_interval))
  | Bound.handle_sniff_mode handle max_interval min_interval attempt timeout =>
      Done (EnqueueCommand st (SniffModeBuilder handle max_interval min_interval attempt timeout))
  | Bound.handle_exit_sniff_mode handle =>
      Done (EnqueueCommand st (ExitSniffModeBuilder handle))
  | Bound.handle_qos_setup_mode handle service_type token_rate peak_bandwidth latency delay_variation =>
      Done (EnqueueCommand st
              (QosSetupBuilder handle service_type token_rate peak_bandwidth latency delay_variation))
  | Bound.handle_role_discovery handle =>
      Done (EnqueueCommand st (RoleDiscoveryBuilder handle))
  | Bound.handle_read_link_policy_settings handle =>
      Done (EnqueueCommand st (ReadLinkPolicySettingsBuilder handle))
  | Bound.handle_write_link_policy_settings handle link_policy_settings =>
      Done (EnqueueCommand st (WriteLinkPolicySettingsBuilder handle link_policy_settings))
  | Bound.handle_flow_specification handle flow_direction service_type token_rate token_bucket_size
      peak_bandwidth access_latency =>
      Done (EnqueueCommand st
              (FlowSpecificationBuilder handle flow_direction service_type token_rate
                 token_bucket_size peak_bandwidth access_latency))
  | Bound.handle_sniff_subrating handle maximum_latency minimum_remote_timeout minimum_local_timeout =>
      Done (EnqueueCommand st
              (SniffSubratingBuilder handle maximum_latency minimum_remote_timeout
                 minimum_local_timeout))
  | Bound.handle_flush handle => Done (EnqueueCommand st (FlushBuilder handle))
  | Bound.handle_read_automatic_flush_timeout handle =>
      Done (EnqueueCommand st (ReadAutomaticFlushTimeoutBuilder handle))
  | Bound.handle_write_automatic_flush_timeout handle flush_timeout =>
      Done (EnqueueCommand st (WriteAutomaticFlushTimeoutBuilder handle flush_timeout))
  | Bound.handle_read_transmit_power_level handle type =>
      Done (EnqueueCommand st (ReadTransmitPowerLevelBuilder handle type))
  | Bound.handle_read_link_supervision_timeout handle =>
      Done (EnqueueCommand st (ReadLinkSupervisionTimeoutBuilder handle))
  | Bound.handle_write_link_supervision_timeout handle link_supervision_timeout =>
      Done (EnqueueCommand st (WriteLinkSupervisionTimeoutBuilder handle link_supervision_timeout))
  | Bound.handle_read_failed_contact_counter handle =>
      Done (EnqueueCommand st (ReadFailedContactCounterBuilder handle))
  | Bound.handle_reset_failed_contact_counter handle =>
      Done (EnqueueCommand st (ResetFailedContactCounterBuilder handle))
  | Bound.handle_read_link_quality handle => Done (EnqueueCommand st (ReadLinkQualityBuilder handle))
  | Bound.handle_afh_channel_map handle => Done (EnqueueCommand st (ReadAfhChannelMapBuilder handle))
  | Bound.handle_read_rssi handle => Done (EnqueueCommand st (ReadRssiBuilder handle))
  | Bound.handle_read_remote_version_information handle =>
      Done (EnqueueCommand st (ReadRemoteVersionInformationBuilder handle))
  | Bound.handle_read_remote_supported_features handle =>
      Done (EnqueueCommand st (ReadRemoteSupportedFeaturesBuilder handle))
  | Bound.handle_read_remote_extended_features handle =>
      Done (EnqueueCommand st (ReadRemoteExtendedFeaturesBuilder handle 1))
  | Bound.handle_read_clock handle which_clock =>
      Done (EnqueueCommand st (ReadClockBuilder handle which_clock))
  | Bound.handle_le_connection_update handle conn_interval_min conn_interval_max conn_latency
      supervision_timeout min_ce_length max_ce_length =>
      Done (EnqueueCommand st
              (LeConnectionUpdateBuilder handle conn_interval_min conn_interval_max conn_latency
                 supervision_timeout min_ce_length max_ce_length))
  | Bound.cleanup handle => cleanup st handle
  | Bound.create_connection address => create_connection st address
  | Bound.cancel_connect address => Done (cancel_connect st address)
  | Bound.handle_register_callbacks callbacks handler => handle_register_callbacks st callbacks handler
  | Bound.handle_register_le_callbacks callbacks handler =>
      handle_register_le_callbacks st callbacks handler
  end.

(** The manager's handler runs the tasks it holds in the order they were
    posted; a task may post further ones. *)
Definition take_task (st : impl) : option (Bound.t * impl) :=
  match handler_tasks st with
  | [] => None
  | task :: rest =>
      Some (task,
            Build_impl (client_callbacks_ st) (client_handler_ st)
              (le_client_callbacks_ st) (le_client_handler_ st)
              (acl_connections_ st) (connecting_ st) (connecting_le_ st)
              (pending_outgoing_connections_ st) (default_link_policy_settings_ st)
              (hci_commands st) rest (hci_handler_tasks st) (upper_layer_posts st))
  end.

Fixpoint run_handler (fuel : nat) (st : impl) : outcome impl :=
  match fuel with
  | O => Done st
  | S fuel =>
      match take_task st with
      | None => Done st
      | Some (task, st) => do st <- run st task; run_handler fuel st
      end
  end.

(** ** Operations of the connection proxies *)

Definition RegisterCallbacks (st : impl) (handle : Z) (callbacks : option CallbacksPtr)
    (handler : option Handler) : outcome impl :=
  do connection <- check_and_get_connection st handle;
  ASSERT (bool_decide (command_complete_callbacks_ connection = None))
    (Done (store_connection st handle (set_command_complete connection handler callbacks))).

Definition UnregisterCallbacks (st : impl) (handle : Z) (callbacks : option CallbacksPtr)
  : outcome impl :=
  do connection <- check_and_get_connection st handle;
  ASSERT (bool_decide (command_complete_callbacks_ connection = callbacks))
    (Done (store_connection st handle
             (set_command_complete connection (command_complete_handler_ connection) None))).

Definition RegisterLeCallbacks (st : impl) (handle : Z) (callbacks : option CallbacksPtr)
    (handler : option Handler) : outcome impl :=
  do connection <- check_and_get_connection st handle;
  ASSERT (bool_decide (le_command_complete_callbacks_ connection = None))
    (Done (store_connection st handle (set_le_command_complete connection handler callbacks))).

Definition RegisterDisconnectCallback (st : impl) (handle : Z) (on_disconnect : option OnceCallback)
    (handler : option Handler) : outcome impl :=
  do connection <- check_and_get_connection st handle;
  let connection :=
    set_disconnect connection (is_disconnected_ connection) (disconnect_reason_ connection)
      handler on_disconnect in
  if is_disconnected_ connection then
    do called <- call_disconnect_callback st connection;
    Done (store_connection (fst called) handle (snd called))
  else Done (store_connection st handle connection).

(** The body the boolean operations share: look the connection up, refuse
    when it is disconnected, else post the task. *)
Definition post_unless_disconnected (st : impl) (handle : Z) (task : Bound.t) : outcome (bool * impl) :=
  do connection <- check_and_get_connection st handle;
  if is_disconnected_ connection then Done (false, st)
  else Done (true, handler_Post st task).

Definition Disconnect (st : impl) (handle reason : Z) :=
  post_unless_disconnected st handle (Bound.handle_disconnect handle reason).
Definition ChangeConnectionPacketType (st : impl) (handle packet_type : Z) :=
  post_unless_disconnected st handle (Bound.handle_change_connection_packet_type handle packet_type).
Definition AuthenticationRequested (st : impl) (handle : Z) :=
  post_unless_disconnected st handle (Bound.handle_authentication_requested handle).
Definition SetConnectionEncryption (st : impl) (handle enable : Z) :=
  post_unless_disconnected st handle (Bound.handle_set_connection_encryption handle enable).
Definition ChangeConnectionLinkKey (st : impl) (handle : Z) :=
  post_unless_disconnected st handle (Bound.handle_change_connection_link_key handle).
Definition ReadClockOffset (st : impl) (handle : Z) :=
  post_unless_disconnected st handle (Bound.handle_read_clock_offset handle).
Definition HoldMode (st : impl) (handle max_interval min_interval : Z) :=
  post_unless_disconnected st handle (Bound.handle_hold_mode handle max_interval min_interval).
Definition SniffMode (st : impl) (handle max_interval min_interval attempt timeout : Z) :=
  post_unless_disconnected st handle
    (Bound.handle_sniff_mode handle max_interval min_interval attempt timeout).
Definition ExitSniffMode (st : impl) (handle : Z) :=
  post_unless_disconnected st handle (Bound.handle_exit_sniff_mode handle).
Definition QosSetup (st : impl)
    (handle service_type token_rate peak_bandwidth latency delay_variation : Z) :=
  post_unless_disconnected st handle
    (Bound.handle_qos_setup_mode handle service_type token_rate peak_bandwidth latency delay_variation).
Definition RoleDiscovery (st : impl) (handle : Z) :=
  post_unless_disconnected st handle (Bound.handle_role_discovery handle).
Definition ReadLinkPolicySettings (st : impl) (handle : Z) :=
  post_unless_disconnected st handle (Bound.handle_read_link_policy_settings handle).
Definition WriteLinkPolicySettings (st : impl) (handle link_policy_settings : Z) :=
  post_unless_disconnected st handle
    (Bound.handle_write_link_policy_settings handle link_policy_settings).
Definition FlowSpecification (st : impl)
    (handle flow_direction service_type token_rate token_bucket_size peak_bandwidth access_latency : Z) :=
  post_unless_disconnected st handle
    (Bound.handle_flow_specification handle flow_direction service_type token_rate token_bucket_size
       peak_bandwidth access_latency).
Definition SniffSubrating (st : impl)
    (handle maximum_latency minimum_remote_timeout minimum_local_timeout : Z) :=
  post_unless_disconnected st handle
    (Bound.handle_sniff_subrating handle maximum_latency minimum_remote_timeout minimum_local_timeout).
Definition Flush (st : impl) (handle : Z) :=
  post_unless_disconnected st handle (Bound.handle_flush handle).
Definition ReadAutomaticFlushTimeout (st : impl) (handle : Z) :=
  post_unless_disconnected st handle (Bound.handle_read_automatic_flush_timeout handle).
Definition WriteAutomaticFlushTimeout (st : impl) (handle flush_timeout : Z) :=
  post_unless_disconnected st handle (Bound.handle_write_automatic_flush_timeout handle flush_timeout).
Definition ReadTransmitPowerLevel (st : impl) (handle type : Z) :=
  post_unless_disconnected st handle (Bound.handle_read_transmit_power_level handle type).
Definition ReadLinkSupervisionTimeout (st : impl) (handle : Z) :=
  post_unless_disconnected st handle (Bound.handle_read_link_supervision_timeout handle).
Definition WriteLinkSupervisionTimeout (st : impl) (handle link_supervision_timeout : Z) :=
  post_unless_disconnected st handle
    (Bound.handle_write_link_supervision_timeout handle link_supervision_timeout).
Definition ReadFailedContactCounter (st : impl) (handle : Z) :=
  post_unless_disconnected st handle (Bound.handle_read_failed_contact_counter handle).
Definition ResetFailedContactCounter (st : impl) (handle : Z) :=
  post_unless_disconnected st handle (Bound.handle_reset_failed_contact_counter handle).
Definition ReadLinkQuality (st : impl) (handle : Z) :=
  post_unless_disconnected st handle (Bound.handle_read_link_quality handle).
Definition ReadAfhChannelMap (st : impl) (handle : Z) :=
  post_unless_disconnected st handle (Bound.handle_afh_channel_map handle).
Definition ReadRssi (st : impl) (handle : Z) :=
  post_unless_disconnected st handle (Bound.handle_read_rssi handle).
Definition ReadRemoteVersionInformation (st : impl) (handle : Z) :=
  post_unless_disconnected st handle (Bound.handle_read_remote_version_information handle).
Definition ReadRemoteSupportedFeatures (st : impl) (handle : Z) :=
  post_unless_disconnected st handle (Bound.handle_read_remote_supported_features handle).
Definition ReadRemoteExtendedFeatures (st : impl) (handle : Z) :=
  post_unless_disconnected st handle (Bound.handle_read_remote_extended_features handle).
Definition ReadClock (st : impl) (handle which_clock : Z) :=
  post_unless_disconnected st handle (Bound.handle_read_clock handle which_clock).

Definition LeConnectionUpdate (st : impl)
    (handle conn_interval_min conn_interval_max conn_latency supervision_timeout
     min_ce_length max_ce_length : Z)
    (done_callback : option OnceCallback) (handler : option Handler) : outcome (bool * impl) :=
  do connection <- check_and_get_connection st handle;
  if is_disconnected_ connection then Done (false, st)
  else if bool_decide (on_connection_update_complete_callback_ connection <> None) then Done (false, st)
  else
    let st := store_connection st handle (set_connection_update connection done_callback handler) in
    if (conn_interval_min <? 0x0006) || (0x0C80 <? conn_interval_min)
       || (conn_interval_max <? 0x0006) || (0x0C80 <? conn_interval_max)
       || (0x01F3 <? conn_latency)
       || (supervision_timeout <? 0x000A) || (0x0C80 <? supervision_timeout)
    then Done (false, st)
    else
      Done (true,
            handler_Post st
              (Bound.handle_le_connection_update handle conn_interval_min conn_interval_max
                 conn_latency supervision_timeout min_ce_length max_ce_length)).

Definition Finish (st : impl) (handle : Z) : outcome impl :=
  do connection <- check_and_get_connection st handle;
  ASSERT (is_disconnected_ connection) (
    let st := hci_handler_Post st (Unregister handle) in
    Done (handler_Post st (Bound.cleanup handle))).

(** The boolean operations of [ClassicAclConnection] and [LeAclConnection],
    with their arguments. *)
Inductive ProxyOperation : Type :=
| Disconnect_ (reason : Z)
| ChangeConnectionPacketType_ (packet_type : Z)
| AuthenticationRequested_
| SetConnectionEncryption_ (enable : Z)
| ChangeConnectionLinkKey_
| ReadClockOffset_
| HoldMode_ (max_interval min_interval : Z)
| SniffMode_ (max_interval min_interval attempt timeout : Z)
| ExitSniffMode_
| QosSetup_ (service_type token_rate peak_bandwidth latency delay_variation : Z)
| RoleDiscovery_
| ReadLinkPolicySettings_
| WriteLinkPolicySettings_ (link_policy_settings : Z)
| FlowSpecification_
    (flow_direction service_type token_rate token_bucket_size peak_bandwidth access_latency : Z)
| SniffSubrating_ (maximum_latency minimum_remote_timeout minimum_local_timeout : Z)
| Flush_
| ReadAutomaticFlushTimeout_
| WriteAutomaticFlushTimeout_ (flush_timeout : Z)
| ReadTransmitPowerLevel_ (type : Z)
| ReadLinkSupervisionTimeout_
| WriteLinkSupervisionTimeout_ (link_supervision_timeout : Z)
| ReadFailedContactCounter_
| ResetFailedContactCounter_
| ReadLinkQuality_
| ReadAfhChannelMap_
| ReadRssi_
| ReadRemoteVersionInformation_
| ReadRemoteSupportedFeatures_
| ReadRemoteExtendedFeatures_
| ReadClock_ (which_clock : Z)
| LeConnectionUpdate_
    (conn_interval_min conn_interval_max conn_latency supervision_timeout
     min_ce_length max_ce_length : Z)
    (done_callback : option OnceCallback) (handler : option Handler).

(** [manager_->pimpl_->Operation(handle_, ...)]. *)
Definition proxy_call (st : impl) (handle_ : Z) (operation : ProxyOperation) : outcome (bool * impl) :=
  match operation with
  | Disconnect_ reason => Disconnect st handle_ reason
  | ChangeConnectionPacketType_ packet_type => ChangeConnectionPacketType st handle_ packet_type
  | AuthenticationRequested_ => AuthenticationRequested st handle_
  | SetConnectionEncryption_ enable => SetConnectionEncryption st handle_ enable
  | ChangeConnectionLinkKey_ => ChangeConnectionLinkKey st handle_
  | ReadClockOffset_ => ReadClockOffset st handle_
  | HoldMode_ max_interval min_interval => HoldMode st handle_ max_interval min_interval
  | SniffMode_ max_interval min_interval attempt timeout =>
      SniffMode st handle_ max_interval min_interval attempt timeout
  | ExitSniffMode_ => ExitSniffMode st handle_
  | QosSetup_ service_type token_rate peak_bandwidth latency delay_variation =>
      QosSetup st handle_ service_type token_rate peak_bandwidth latency delay_variation
  | RoleDiscovery_ => RoleDiscovery st handle_
  | ReadLinkPolicySettings_ => ReadLinkPolicySettings st handle_
  | WriteLinkPolicySettings_ link_policy_settings =>
      WriteLinkPolicySettings st handle_ link_policy_settings
  | FlowSpecification_ flow_direction service_type token_rate token_bucket_size peak_bandwidth
      access_latency =>
      FlowSpecification st handle_ flow_direction service_type token_rate token_bucket_size
        peak_bandwidth access_latency
  | SniffSubrating_ maximum_latency minimum_remote_timeout minimum_local_timeout =>
      SniffSubrating st handle_ maximum_latency minimum_remote_timeout minimum_local_timeout
  | Flush_ => Flush st handle_
  | ReadAutomaticFlushTimeout_ => ReadAutomaticFlushTimeout st handle_
  | WriteAutomaticFlushTimeout_ flush_timeout => WriteAutomaticFlushTimeout st handle_ flush_timeout
  | ReadTransmitPowerLevel_ type => ReadTransmitPowerLevel st handle_ type
  | ReadLinkSupervisionTimeout_ => ReadLinkSupervisionTimeout st handle_
  | WriteLinkSupervisionTimeout_ link_supervision_timeout =>
      WriteLinkSupervisionTimeout st handle_ link_supervision_timeout
  | ReadFailedContactCounter_ => ReadFailedContactCounter st handle_
  | ResetFailedContactCounter_ => ResetFailedContactCounter st handle_
  | ReadLinkQuality_ => ReadLinkQuality st handle_
  | ReadAfhChannelMap_ => ReadAfhChannelMap st handle_
  | ReadRssi_ => ReadRssi st handle_
  | ReadRemoteVersionInformation_ => ReadRemoteVersionInformation st handle_
  | ReadRemoteSupportedFeatures_ => ReadRemoteSupportedFeatures st handle_
  | ReadRemoteExtendedFeatures_ => ReadRemoteExtendedFeatures st handle_
  | ReadClock_ which_clock => ReadClock st handle_ which_clock
  | LeConnectionUpdate_ conn_interval_min conn_interval_max conn_latency supervision_timeout
      min_ce_length max_ce_length done_callback handler =>
      LeConnectionUpdate st handle_ conn_interval_min conn_interval_max conn_latency
        supervision_timeout min_ce_length max_ce_length done_callback handler
  end.

(** ** When a handler runs to its end *)

Definition registered {A} (pointer : option A) : bool :=
  match pointer with Some _ => true | None => false end.



(** ** States used in the examples *)

Definition peer : AddressWithType :=
  {| GetAddress := 0xAABBCCDDEEFF; GetAddressType := PUBLIC_DEVICE_ADDRESS |}.

Definition le_peer : AddressWithType :=
  {| GetAddress := 0x112233445566; GetAddressType := PUBLIC_DEVICE_ADDRESS |}.

(** A connection whose consumer has stalled: eleven PDUs wait on the
    inbound queue, which is as far as [on_incoming_packet] lets it grow. *)
Definition stalled_connection : acl_connection :=
  set_incoming (new_acl_connection peer) true (repeat [x00; x00; x01; x00] 11).

(** The upper layer has registered with handler 1, a Classic link with
    handle 0x40 is up and its owner has registered a disconnect callback. *)
Definition live_link : impl :=
  store_connection (set_client Start (Some 1%nat) (Some 1%nat)) 0x40
    (set_disconnect (new_acl_connection peer) false 0 (Some 2%nat) (Some 7%nat)).

(** The same link after its DISCONNECTION_COMPLETE. *)
Definition disconnected_link : impl :=
  store_connection (set_client Start (Some 1%nat) (Some 1%nat)) 0x40
    (set_disconnect (new_acl_connection peer) true 0x13 (Some 2%nat) None).

(** An LE link with handle 0x41 and no connection update pending. *)
Definition le_link : impl :=
  store_connection (set_le_client Start (Some 1%nat) (Some 1%nat)) 0x41 (new_acl_connection le_peer).

(** Three peers, the Create-Connection command [create_connection] builds
    for a peer, and a valid CONNECTION_COMPLETE event. *)
Definition address_A : Address := 0xA0A1A2A3A4A5.
Definition address_B : Address := 0xB0B1B2B3B4B5.
Definition address_C : Address := 0xC0C1C2C3C4C5.

Definition create (address : Address) : CommandBuilder :=
  CreateConnectionBuilder address 0xCC18 R1 0 INVALID ALLOW_ROLE_SWITCH.

Definition connection_complete (status : ErrorCode) (handle : Z) (address : Address)
  : ConnectionCompleteView.t :=
  {| ConnectionCompleteView.IsValid := true;
     ConnectionCompleteView.GetStatus := status;
     ConnectionCompleteView.GetConnectionHandle := handle;
     ConnectionCompleteView.GetBdAddr := address |}.

(** ** The consumer of the inbound queue *)

(** The queue reactable calls [on_incoming_data_ready] once for every PDU
    it takes; [drain] takes up to [n] of them. *)
Fixpoint drain (n : nat) (c : acl_connection) : list (list byte) * acl_connection :=
  match n with
  | O => ([], c)
  | S n =>
      match on_incoming_data_ready c with
      | None => ([], c)
      | Some (packet, c) => let (packets, c) := drain n c in (packet :: packets, c)
      end
  end.

(** The enqueue callback is registered exactly while PDUs wait. *)
Definition registration_consistent (c : acl_connection) : Prop :=
  enqueue_registered_ c = true <-> incoming_queue_ c <> [].

(** ** The reply to Accept-Connection-Request *)

Module AcceptConnectionRequestStatusView.
Record t : Type := { IsValid : bool; GetStatus : ErrorCode }.
End AcceptConnectionRequestStatusView.

Definition on_accept_connection_status (st : impl) (address : Address)
    (accept_status : AcceptConnectionRequestStatusView.t) : outcome impl :=
  ASSERT (AcceptConnectionRequestStatusView.IsValid accept_status) (
    if negb (AcceptConnectionRequestStatusView.GetStatus accept_status =? SUCCESS)
    then Done (cancel_connect st address)
    else Done st).

(** ** Reading commands *)

(** The connection handle a command names, for the commands that name one. *)
Definition command_handle (command : CommandBuilder) : option Z :=
  match command with
  | CreateConnectionBuilder _ _ _ _ _ _
  | CreateConnectionCancelBuilder _
  | AcceptConnectionRequestBuilder _ _
  | RejectConnectionRequestBuilder _ _
  | ReadDefaultLinkPolicySettingsBuilder => None
  | DisconnectBuilder handle _
  | ChangeConnectionPacketTypeBuilder handle _
  | AuthenticationRequestedBuilder handle
  | SetConnectionEncryptionBuilder handle _
  | ChangeConnectionLinkKeyBuilder handle
  | ReadClockOffsetBuilder handle
  | HoldModeBuilder handle _ _
  | SniffModeBuilder handle _ _ _ _
  | ExitSniffModeBuilder handle
  | QosSetupBuilder handle _ _ _ _ _
  | RoleDiscoveryBuilder handle
  | ReadLinkPolicySettingsBuilder handle
  | WriteLinkPolicySettingsBuilder handle _
  | FlowSpecificationBuilder handle _ _ _ _ _ _
  | SniffSubratingBuilder handle _ _ _
  | FlushBuilder handle
  | ReadAutomaticFlushTimeoutBuilder handle
  | WriteAutomaticFlushTimeoutBuilder handle _
  | ReadTransmitPowerLevelBuilder handle _
  | ReadLinkSupervisionTimeoutBuilder handle
  | WriteLinkSupervisionTimeoutBuilder handle _
  | ReadFailedContactCounterBuilder handle
  | ResetFailedContactCounterBuilder handle
  | ReadLinkQualityBuilder handle
  | ReadAfhChannelMapBuilder handle
  | ReadRssiBuilder handle
  | ReadRemoteVersionInformationBuilder handle
  | ReadRemoteSupportedFeaturesBuilder handle
  | ReadRemoteExtendedFeaturesBuilder handle _
  | ReadClockBuilder handle _
  | LeConnectionUpdateBuilder handle _ _ _ _ _ _ => Some handle
  end.

(** The peer a command names, for the commands of connection set-up. *)
Definition command_address (command : CommandBuilder) : option Address :=
  match command with
  | CreateConnectionBuilder address _ _ _ _ _
  | CreateConnectionCancelBuilder address
  | AcceptConnectionRequestBuilder address _
  | RejectConnectionRequestBuilder address _ => Some address
  | _ => None
  end.


(** The ranges [LeConnectionUpdate] checks its parameters against. *)
Definition connection_update_parameters_in_range
    (conn_interval_min conn_interval_max conn_latency supervision_timeout : Z) : bool :=
  (0x0006 <=? conn_interval_min) && (conn_interval_min <=? 0x0C80)
  && (0x0006 <=? conn_interval_max) && (conn_interval_max <=? 0x0C80)
  && (conn_latency <=? 0x01F3)
  && (0x000A <=? supervision_timeout) && (supervision_timeout <=? 0x0C80).

Definition mode_change (handle current_mode interval : Z) : ModeChangeView.t :=
  {| ModeChangeView.IsValid := true;
     ModeChangeView.GetStatus := SUCCESS;
     ModeChangeView.GetConnectionHandle := handle;
     ModeChangeView.GetCurrentMode := current_mode;
     ModeChangeView.GetInterval := interval |}.

Definition connection_update_complete (handle : Z) : LeConnectionUpdateCompleteView.t :=
  {| LeConnectionUpdateCompleteView.IsValid := true;
     LeConnectionUpdateCompleteView.GetStatus := SUCCESS;
     LeConnectionUpdateCompleteView.GetConnectionHandle := handle |}.

(** * Properties *)

(** ** Integer conversions that do not wrap *)

Section Conversions.

Lemma size_nonneg {A} (l : list A) : 0 <= Cxx.size l.
Proof. unfold Cxx.size. lia. Qed.

Lemma size_app {A} (l1 l2 : list A) : Cxx.size (l1 ++ l2) = Cxx.size l1 + Cxx.size l2.
Proof. unfold Cxx.size. rewrite length_app. lia. Qed.

Lemma size_t_of_small (x : Z) : 0 <= x < 2 ^ 64 -> Cxx.size_t_of x = x.
Proof. intros H. unfold Cxx.size_t_of. apply Z.mod_small. exact H. Qed.

Lemma int_of_small (x : Z) : 0 <= x < 2 ^ 31 -> Cxx.int_of x = x.
Proof.
  intros H. unfold Cxx.int_of.
  rewrite Z.mod_small by lia.
  destruct (Z.ltb_spec x (2 ^ 31)); lia.
Qed.

Lemma size_t_sub_small (a b : Z) : 0 <= b <= a -> a < 2 ^ 64 -> Cxx.size_t_sub a b = a - b.
Proof.
  intros Hb Ha. unfold Cxx.size_t_sub.
  rewrite (size_t_of_small a), (size_t_of_small b) by lia.
  apply size_t_of_small. lia.
Qed.

(** [0 - (n - 4)] in [size_t], for [n < 4]: both subtractions wrap, and
    the result is the small positive number [4 - n]. *)
Lemma size_t_sub_wraps_twice (n : Z) :
  0 <= n < 4 -> Cxx.size_t_sub 0 (Cxx.size_t_sub n 4) = 4 - n.
Proof.
  intros H. unfold Cxx.size_t_sub, Cxx.size_t_of.
  assert (n = 0 \/ n = 1 \/ n = 2 \/ n = 3) as [-> | [-> | [-> | ->]]] by lia; reflexivity.
Qed.

Lemma at_bounds (payload : list byte) (i : nat) : 0 <= at_ payload i < 2 ^ 8.
Proof.
  unfold at_. pose proof (Byte.to_N_bounded (nth i payload x00)). lia.
Qed.

(** On a payload that holds the basic header, [GetL2capPduSize] reads the
    little-endian length field. *)
Lemma GetL2capPduSize_little_endian (packet : AclPacketView) :
  4 <= Cxx.size (GetPayload packet) ->
  GetL2capPduSize packet = l2cap_length (GetPayload packet).
Proof.
  intros H. unfold GetL2capPduSize, l2cap_length, kL2capBasicFrameHeaderSize.
  destruct (Z.ltb_spec (Cxx.size (GetPayload packet)) 4); [lia |].
  pose proof (at_bounds (GetPayload packet) 0).
  pose proof (at_bounds (GetPayload packet) 1).
  rewrite Z.shiftl_mul_pow2 by lia.
  unfold Cxx.uint16_of. rewrite Z.mod_small; lia.
Qed.

Lemma l2cap_length_bounds (payload : list byte) : 0 <= l2cap_length payload < 2 ^ 16.
Proof.
  unfold l2cap_length.
  pose proof (at_bounds payload 0). pose proof (at_bounds payload 1). lia.
Qed.

End Conversions.

(** ** The reassembler on well-formed fragment sequences *)

Section Reassembly.





End Reassembly.

Section ReassemblyClaims.








(** C3.  A FIRST fragment that is complete in itself does not clear the
    recombination buffer: the five bytes of the unfinished PDU are still
    staged after it, and an empty CONTINUING fragment then puts them on
    the inbound queue. *)
Theorem complete_first_keeps_stale_buffer :
  let unfinished := fragment FIRST_AUTOMATICALLY_FLUSHABLE [x08; x00; x01; x00; x11] in
  let complete := fragment FIRST_AUTOMATICALLY_FLUSHABLE [x00; x00; x01; x00] in
  let empty := fragment CONTINUING_FRAGMENT [] in
  let c1 := on_incoming_packet (new_acl_connection peer) unfinished in
  let c2 := on_incoming_packet c1 complete in
  let c3 := on_incoming_packet c2 empty in
  recombination_stage_ c1 = [x08; x00; x01; x00; x11]
  /\ recombination_stage_ c2 = [x08; x00; x01; x00; x11]
  /\ incoming_queue_ c2 = [[x00; x00; x01; x00]]
  /\ incoming_queue_ c3 = [[x00; x00; x01; x00]; [x08; x00; x01; x00; x11]].
Proof. vm_compute. repeat split; reflexivity. Qed.

(** C4.  An empty CONTINUING fragment on a connection with no reassembly
    in progress is not dropped: zero is not less than zero, the fragment
    counts as the one that completes a PDU, and an empty PDU is put on
    the inbound queue. *)
Theorem empty_continuing_without_first_is_delivered :
  let c := new_acl_connection peer in
  let empty := fragment CONTINUING_FRAGMENT [] in
  idle c
  /\ incoming_queue_ c = []
  /\ incoming_queue_ (on_incoming_packet c empty) = [[]].
Proof. vm_compute. repeat split; reflexivity. Qed.

(** C5.  A FIRST fragment of two bytes is not dropped: [GetL2capPduSize]
    answers 0, the caller computes [0 - (2 - 4)] and finds two bytes
    missing, and stages the fragment.  Two more bytes in a CONTINUING
    fragment then complete a PDU. *)
Theorem short_first_is_staged :
  let c := new_acl_connection peer in
  let short := fragment FIRST_AUTOMATICALLY_FLUSHABLE [x08; x00] in
  let cont := fragment CONTINUING_FRAGMENT [x01; x00] in
  let c1 := on_incoming_packet c short in
  idle c
  /\ GetL2capPduSize short = 0
  /\ incoming_queue_ c1 = []
  /\ recombination_stage_ c1 = [x08; x00]
  /\ remaining_sdu_continuation_packet_size_ c1 = 2
  /\ incoming_queue_ (on_incoming_packet c1 cont) = [[x08; x00; x01; x00]].
Proof. vm_compute. repeat split; reflexivity. Qed.

(** The parts of C4 and C5 the code does keep. *)

Lemma continuing_without_first_is_dropped (c : acl_connection) (p : AclPacketView) :
  idle c -> is_continuing p = true -> GetPayload p <> [] ->
  on_incoming_packet c p = set_recombination c [] 0.
Proof.
  intros [_ Hzero] Hflag Hpayload. unfold on_incoming_packet, is_continuing in *.
  destruct (GetPacketBoundaryFlag p); try discriminate.
  rewrite Hzero. change (Cxx.size_t_of 0) with 0.
  destruct (Z.ltb_spec 0 (Cxx.size (GetPayload p))) as [_ | Hempty]; [reflexivity |].
  unfold Cxx.size in Hempty. destruct (GetPayload p); [congruence | simpl in Hempty; lia].
Qed.

Lemma short_first_enqueues_nothing (c : acl_connection) (p : AclPacketView) :
  is_first p = true -> Cxx.size (GetPayload p) < 4 ->
  on_incoming_packet c p = set_recombination c (GetPayload p) (4 - Cxx.size (GetPayload p)).
Proof.
  intros Hflag Hshort. unfold on_incoming_packet, is_first in *.
  destruct (GetPacketBoundaryFlag p); try discriminate.
  pose proof (size_nonneg (GetPayload p)) as Hn.
  unfold GetL2capPduSize, kL2capBasicFrameHeaderSize.
  destruct (Z.ltb_spec (Cxx.size (GetPayload p)) 4); [| lia].
  rewrite size_t_sub_wraps_twice by lia.
  rewrite int_of_small by lia.
  destruct (Z.ltb_spec 0 (4 - Cxx.size (GetPayload p))); [reflexivity | lia].
Qed.

End ReassemblyClaims.

(** ** Inputs from the controller *)

Section ControllerInputs.














End ControllerInputs.

Section ControllerInputClaims.




(** What the ingress router drops leaves no trace. *)
Lemma dropped_acl_packet (st : impl) (packet : AclPacketView) :
  IsValid packet = false
  \/ GetHandle packet = kQualcommDebugHandle
  \/ acl_connections_ st !! GetHandle packet = None ->
  on_controller_input st (AclPacket packet) = Done st.
Proof.
  intros Hdropped. cbn. unfold dequeue_and_route_acl_packet_to_connection.
  destruct (IsValid packet); [| reflexivity]. cbn [negb].
  destruct (Z.eqb_spec (GetHandle packet) kQualcommDebugHandle); [reflexivity |].
  destruct Hdropped as [H | [H | H]]; [discriminate | contradiction |].
  rewrite H. reflexivity.
Qed.

(** C6.  A CONNECTION_PACKET_TYPE_CHANGED, AUTHENTICATION_COMPLETE or
    MODE_CHANGE event with status SUCCESS for a handle that is not in the
    connection table is not logged and dropped: the handler takes
    [acl_connections_.find(handle)->second] of the end iterator.  The
    handler of the LE connection-update-complete event, which compares
    the iterator with [end()] first, returns. *)
Theorem event_for_unknown_handle_dereferences_end :
  acl_connections_ Start !! 0x41 = None
  /\ on_connection_packet_type_changed Start
       {| ConnectionPacketTypeChangedView.IsValid := true;
          ConnectionPacketTypeChangedView.GetStatus := SUCCESS;
          ConnectionPacketTypeChangedView.GetConnectionHandle := 0x41;
          ConnectionPacketTypeChangedView.GetPacketType := 0xCC18 |}
     = Crash EndIterator
  /\ on_authentication_complete Start
       {| AuthenticationCompleteView.IsValid := true;
          AuthenticationCompleteView.GetStatus := SUCCESS;
          AuthenticationCompleteView.GetConnectionHandle := 0x41 |}
     = Crash EndIterator
  /\ on_mode_change Start
       {| ModeChangeView.IsValid := true;
          ModeChangeView.GetStatus := SUCCESS;
          ModeChangeView.GetConnectionHandle := 0x41;
          ModeChangeView.GetCurrentMode := 2;
          ModeChangeView.GetInterval := 0x0320 |}
     = Crash EndIterator
  /\ on_le_connection_update_complete Start
       {| LeConnectionUpdateCompleteView.IsValid := true;
          LeConnectionUpdateCompleteView.GetStatus := SUCCESS;
          LeConnectionUpdateCompleteView.GetConnectionHandle := 0x41 |}
     = Done Start.
Proof. vm_compute. repeat split; reflexivity. Qed.

End ControllerInputClaims.

(** ** Operations of the connection proxies *)

Section ProxyOperations.

Lemma post_unless_disconnected_refuses
    (st : impl) (handle : Z) (connection : acl_connection) (task : Bound.t) :
  acl_connections_ st !! handle = Some connection ->
  is_disconnected_ connection = true ->
  post_unless_disconnected st handle task = Done (false, st).
Proof.
  intros Hlookup Hflag. unfold post_unless_disconnected, check_and_get_connection.
  rewrite Hlookup. cbn. rewrite Hflag. reflexivity.
Qed.

(** C7.  On a connection whose [is_disconnected_] flag is set, every
    boolean operation of the connection proxies returns false and leaves
    the manager as it was: no task is posted on the manager's handler, so
    no HCI command is enqueued. *)
Theorem operation_on_disconnected_connection
    (st : impl) (handle : Z) (connection : acl_connection) (operation : ProxyOperation) :
  acl_connections_ st !! handle = Some connection ->
  is_disconnected_ connection = true ->
  proxy_call st handle operation = Done (false, st).
Proof.
  intros Hlookup Hflag.
  destruct operation; cbn [proxy_call];
    try (apply (post_unless_disconnected_refuses st handle connection); assumption).
  unfold LeConnectionUpdate, check_and_get_connection.
  rewrite Hlookup. cbn. rewrite Hflag. reflexivity.
Qed.

Lemma operation_on_disconnected_connection_witness :
  let connection := set_disconnect (new_acl_connection peer) true 0x13 (Some 2%nat) None in
  acl_connections_ disconnected_link !! 0x40 = Some connection
  /\ is_disconnected_ connection = true
  /\ proxy_call disconnected_link 0x40 ReadRssi_ = Done (false, disconnected_link)
  /\ proxy_call disconnected_link 0x40
       (LeConnectionUpdate_ 0x0018 0x0028 0 0x01F4 0x0002 0x0C00 (Some 8%nat) (Some 3%nat))
     = Done (false, disconnected_link).
Proof.
  intros connection.
  assert (acl_connections_ disconnected_link !! 0x40 = Some connection) as Hlookup
    by (vm_compute; reflexivity).
  split; [exact Hlookup |]. split; [reflexivity |].
  split.
  - exact (operation_on_disconnected_connection disconnected_link 0x40 connection ReadRssi_
             Hlookup eq_refl).
  - exact (operation_on_disconnected_connection disconnected_link 0x40 connection
             (LeConnectionUpdate_ 0x0018 0x0028 0 0x01F4 0x0002 0x0C00 (Some 8%nat) (Some 3%nat))
             Hlookup eq_refl).
Defined.

(** The state [disconnected_link] is the one DISCONNECTION_COMPLETE leaves
    [live_link] in, up to what the event posted. *)
Lemma disconnected_link_reached :
  exists st,
    on_disconnection_complete live_link
      {| DisconnectionCompleteView.IsValid := true;
         DisconnectionCompleteView.GetStatus := SUCCESS;
         DisconnectionCompleteView.GetConnectionHandle := 0x40;
         DisconnectionCompleteView.GetReason := 0x13 |} = Done st
    /\ acl_connections_ st = acl_connections_ disconnected_link
    /\ hci_handler_tasks st = [SetDisconnect 0x40]
    /\ upper_layer_posts st = [(2%nat, RunOnce (Some 7%nat) 0x13)].
Proof.
  eexists. split; [vm_compute; reflexivity |].
  repeat (split; [vm_compute; reflexivity |]).
  vm_compute; reflexivity.
Qed.

(** C8.  [LeConnectionUpdate] stores the callback before it checks the
    parameters.  A call with [conn_interval_min = 0x0005] returns false
    and posts nothing, but leaves its callback in the pending slot, and
    the next call, with parameters in range, is refused as a second
    pending update. *)
Theorem rejected_update_stays_pending :
  exists st,
    LeConnectionUpdate le_link 0x41 0x0005 0x0028 0 0x01F4 0x0002 0x0C00 (Some 7%nat) (Some 3%nat)
    = Done (false, st)
    /\ handler_tasks st = []
    /\ hci_commands st = hci_commands le_link
    /\ on_connection_update_complete_callback_ <$> (acl_connections_ le_link !! 0x41)
       = Some None
    /\ on_connection_update_complete_callback_ <$> (acl_connections_ st !! 0x41)
       = Some (Some 7%nat)
    /\ LeConnectionUpdate st 0x41 0x0018 0x0028 0 0x01F4 0x0002 0x0C00 (Some 8%nat) (Some 3%nat)
       = Done (false, st).
Proof.
  eexists. split; [vm_compute; reflexivity |].
  repeat (split; [vm_compute; reflexivity |]).
  vm_compute; reflexivity.
Qed.

(** The part of C8 that holds: a call while an update is pending returns
    false and leaves the pending one in place. *)
Lemma second_update_is_refused
    (st : impl) (handle : Z) (connection : acl_connection) (pending : OnceCallback)
    (conn_interval_min conn_interval_max conn_latency supervision_timeout
     min_ce_length max_ce_length : Z)
    (done_callback : option OnceCallback) (handler : option Handler) :
  acl_connections_ st !! handle = Some connection ->
  on_connection_update_complete_callback_ connection = Some pending ->
  LeConnectionUpdate st handle conn_interval_min conn_interval_max conn_latency
    supervision_timeout min_ce_length max_ce_length done_callback handler
  = Done (false, st).
Proof.
  intros Hlookup Hpending. unfold LeConnectionUpdate, check_and_get_connection.
  rewrite Hlookup. cbn. rewrite Hpending.
  destruct (is_disconnected_ connection); reflexivity.
Qed.




End ProxyOperations.

(** ** Outgoing Classic connections *)

Section OutgoingConnections.

(** While a connection is being set up, a request is queued. *)
Lemma create_connection_queues (st : impl) (address : Address) :
  client_callbacks_ st <> None ->
  connecting_ st <> ∅ ->
  create_connection st address
  = Done (set_pending_outgoing_connections st
            (pending_outgoing_connections_ st ++ [(address, create address)])).
Proof.
  intros Hcallbacks Hconnecting. unfold create_connection, ASSERT.
  rewrite bool_decide_eq_true_2 by exact Hcallbacks.
  rewrite bool_decide_eq_false_2 by exact Hconnecting.
  reflexivity.
Qed.

(** A CONNECTION_COMPLETE with status SUCCESS issues the oldest pending
    request. *)
Lemma successful_complete_issues_pending :
  exists st,
    (do st <- handle_register_callbacks Start 1%nat 1%nat;
     do st <- create_connection st address_A;
     do st <- create_connection st address_B;
     do st <- create_connection st address_C;
     on_connection_complete st (connection_complete SUCCESS 0x40 address_A)) = Done st
    /\ hci_commands st
       = [ReadDefaultLinkPolicySettingsBuilder; create address_A; create address_B]
    /\ pending_outgoing_connections_ st = [(address_C, create address_C)]
    /\ connecting_ st = {[address_B]}.
Proof.
  eexists. split; [vm_compute; reflexivity |].
  repeat (split; [vm_compute; reflexivity |]).
  vm_compute; reflexivity.
Qed.

(** C9.  A CONNECTION_COMPLETE with an error status (0x04, page timeout)
    for the connection in flight returns right after it has posted
    [OnConnectFail]: the request for B stays on the pending queue and no
    Create-Connection is issued for it.  As [connecting_] is empty by
    then, a later request for C is issued at once, ahead of B. *)
Theorem failed_complete_strands_pending :
  exists st st',
    (do st <- handle_register_callbacks Start 1%nat 1%nat;
     do st <- create_connection st address_A;
     do st <- create_connection st address_B;
     on_connection_complete st (connection_complete 0x04 0 address_A)) = Done st
    /\ upper_layer_posts st = [(1%nat, OnConnectFail (Some 1%nat) address_A 0x04)]
    /\ connecting_ st = ∅
    /\ pending_outgoing_connections_ st = [(address_B, create address_B)]
    /\ hci_commands st = [ReadDefaultLinkPolicySettingsBuilder; create address_A]
    /\ create_connection st address_C = Done st'
    /\ pending_outgoing_connections_ st' = [(address_B, create address_B)]
    /\ hci_commands st'
       = [ReadDefaultLinkPolicySettingsBuilder; create address_A; create address_C].
Proof.
  eexists. eexists.
  split; [vm_compute; reflexivity |].
  repeat (split; [vm_compute; reflexivity |]).
  vm_compute; reflexivity.
Qed.

End OutgoingConnections.

(** * Further properties of the reassembler *)

Section ReassemblerProperties.

(** [GetL2capPduSize] answers 0 for a payload shorter than the basic
    header, and the little-endian length field otherwise. *)
Theorem GetL2capPduSize_decodes (packet : AclPacketView) :
  GetL2capPduSize packet
  = if Cxx.size (GetPayload packet) <? 4 then 0 else l2cap_length (GetPayload packet).
Proof.
  destruct (Z.ltb_spec (Cxx.size (GetPayload packet)) 4) as [Hshort | Hheader].
  - unfold GetL2capPduSize, kL2capBasicFrameHeaderSize.
    destruct (Z.ltb_spec (Cxx.size (GetPayload packet)) 4); [reflexivity | lia].
  - apply GetL2capPduSize_little_endian. exact Hheader.
Qed.

(** A fragment puts at most one PDU on the inbound queue, behind the ones
    that wait, and the PDU is the fragment's payload or the recombination
    buffer followed by the payload: nothing queued is lost, reordered or
    altered. *)
Theorem on_incoming_packet_appends (c : acl_connection) (p : AclPacketView) :
  incoming_queue_ (on_incoming_packet c p) = incoming_queue_ c
  \/ incoming_queue_ (on_incoming_packet c p) = incoming_queue_ c ++ [GetPayload p]
  \/ incoming_queue_ (on_incoming_packet c p)
     = incoming_queue_ c ++ [recombination_stage_ c ++ GetPayload p].
Proof.
  unfold on_incoming_packet, deliver.
  destruct (GetPacketBoundaryFlag p); cbn [incoming_queue_ set_recombination].
  - left. reflexivity.
  - destruct (_ <? Cxx.size (GetPayload p)); [left; reflexivity |].
    destruct (negb _); [left; reflexivity |].
    cbn [incoming_queue_ set_recombination].
    destruct (_ <? _); [left | right; right]; reflexivity.
  - destruct (0 <? _); [left; reflexivity |].
    cbn [incoming_queue_ set_recombination].
    destruct (_ <? _); [left | right; left]; reflexivity.
Qed.

(** The inbound queue never holds more than eleven PDUs: the congestion
    check lets a PDU in while ten or fewer wait. *)
Theorem inbound_queue_bounded (c : acl_connection) (p : AclPacketView) :
  Cxx.size (incoming_queue_ c) <= kMaxQueuedPacketsPerConnection + 1 ->
  Cxx.size (incoming_queue_ (on_incoming_packet c p)) <= kMaxQueuedPacketsPerConnection + 1.
Proof.
  unfold kMaxQueuedPacketsPerConnection. intros Hbound.
  assert (forall c' payload,
             incoming_queue_ c' = incoming_queue_ c ->
             Cxx.size (incoming_queue_ (deliver c' payload)) <= 10 + 1) as Hdeliver.
  { intros c' payload Hsame. unfold deliver, kMaxQueuedPacketsPerConnection. rewrite Hsame.
    destruct (Z.ltb_spec 10 (Cxx.size (incoming_queue_ c))).
    - rewrite Hsame. exact Hbound.
    - cbn [incoming_queue_ set_incoming]. rewrite size_app. unfold Cxx.size at 2. simpl. lia. }
  unfold on_incoming_packet.
  destruct (GetPacketBoundaryFlag p); [exact Hbound | |].
  - destruct (_ <? Cxx.size (GetPayload p)); [exact Hbound |].
    destruct (negb _); [exact Hbound | apply Hdeliver; reflexivity].
  - destruct (0 <? _); [exact Hbound | apply Hdeliver; reflexivity].
Qed.

Lemma inbound_queue_bounded_witness :
  Cxx.size (incoming_queue_ stalled_connection) = 11
  /\ Cxx.size (incoming_queue_
                 (on_incoming_packet stalled_connection
                    (fragment FIRST_AUTOMATICALLY_FLUSHABLE [x00; x00; x01; x00])))
     <= kMaxQueuedPacketsPerConnection + 1.
Proof.
  split; [reflexivity |].
  apply (inbound_queue_bounded stalled_connection). vm_compute. discriminate.
Defined.

(** A CONTINUING fragment longer than what is missing ends the reassembly:
    the recombination buffer is emptied, nothing is missing any more, and
    no PDU is put on the inbound queue. *)
Theorem oversized_continuing_resets (c : acl_connection) (p : AclPacketView) :
  is_continuing p = true ->
  0 <= remaining_sdu_continuation_packet_size_ c < Cxx.size (GetPayload p) ->
  remaining_sdu_continuation_packet_size_ c < 2 ^ 31 ->
  on_incoming_packet c p = set_recombination c [] 0.
Proof.
  intros Hflag Hsize Hint. unfold on_incoming_packet, is_continuing in *.
  destruct (GetPacketBoundaryFlag p); try discriminate.
  rewrite size_t_of_small by lia.
  destruct (Z.ltb_spec (remaining_sdu_continuation_packet_size_ c) (Cxx.size (GetPayload p)));
    [reflexivity | lia].
Qed.

Lemma oversized_continuing_resets_witness :
  let c := on_incoming_packet (new_acl_connection peer)
             (fragment FIRST_AUTOMATICALLY_FLUSHABLE [x08; x00; x01; x00; x11; x22; x33; x44]) in
  let p := fragment CONTINUING_FRAGMENT [x55; x56; x57; x58; x59] in
  remaining_sdu_continuation_packet_size_ c = 4
  /\ on_incoming_packet c p = set_recombination c [] 0.
Proof.
  intros c p. split; [reflexivity |].
  apply (oversized_continuing_resets c p); [reflexivity | vm_compute; split; congruence |
                                            vm_compute; reflexivity].
Defined.

(** A FIRST fragment that brings more bytes than its length field
    announces is delivered whole, and leaves a negative count of missing
    bytes behind. *)
Theorem overlong_first_is_delivered (c : acl_connection) (p : AclPacketView) :
  is_first p = true ->
  4 <= Cxx.size (GetPayload p) < 2 ^ 31 ->
  l2cap_length (GetPayload p) < Cxx.size (GetPayload p) - 4 ->
  let missing := l2cap_length (GetPayload p) - (Cxx.size (GetPayload p) - 4) in
  missing < 0
  /\ on_incoming_packet c p
     = deliver (set_recombination c (recombination_stage_ c) missing) (GetPayload p).
Proof.
  intros Hflag Hsize Hlong missing. subst missing. split; [lia |].
  unfold on_incoming_packet, is_first in *.
  destruct (GetPacketBoundaryFlag p); try discriminate.
  pose proof (l2cap_length_bounds (GetPayload p)) as Hlen.
  rewrite GetL2capPduSize_little_endian by lia.
  unfold kL2capBasicFrameHeaderSize.
  rewrite (size_t_sub_small (Cxx.size (GetPayload p)) 4) by lia.
  set (n := Cxx.size (GetPayload p)) in *. set (l := l2cap_length (GetPayload p)) in *.
  assert (Cxx.int_of (Cxx.size_t_sub l (n - 4)) = l - (n - 4)) as ->.
  { unfold Cxx.size_t_sub, Cxx.size_t_of, Cxx.int_of.
    rewrite (Z.mod_small l) by lia. rewrite (Z.mod_small (n - 4)) by lia.
    replace ((l - (n - 4)) mod 2 ^ 64) with (l - (n - 4) + 2 ^ 64)
      by (apply Z.mod_unique with (q := -1); lia).
    replace ((l - (n - 4) + 2 ^ 64) mod 2 ^ 32) with (l - (n - 4) + 2 ^ 32)
      by (apply Z.mod_unique with (q := 2 ^ 32 - 1); lia).
    destruct (Z.ltb_spec (l - (n - 4) + 2 ^ 32) (2 ^ 31)); lia. }
  destruct (Z.ltb_spec 0 (l - (n - 4))); [lia | reflexivity].
Qed.

Lemma overlong_first_is_delivered_witness :
  let p := fragment FIRST_AUTOMATICALLY_FLUSHABLE [x00; x00; x01; x00; xaa] in
  let c := on_incoming_packet (new_acl_connection peer) p in
  incoming_queue_ c = [[x00; x00; x01; x00; xaa]]
  /\ remaining_sdu_continuation_packet_size_ c = -1.
Proof.
  intros p c.
  destruct (overlong_first_is_delivered (new_acl_connection peer) p) as [_ Hstep];
    [reflexivity | vm_compute; split; congruence | vm_compute; reflexivity |].
  subst c. rewrite Hstep. split; reflexivity.
Defined.

(** The enqueue callback is registered exactly while PDUs wait: a new
    connection starts that way, and neither a fragment coming in nor a PDU
    handed to the consumer changes it. *)
Theorem registration_kept (c : acl_connection) (p : AclPacketView) :
  registration_consistent c ->
  registration_consistent (on_incoming_packet c p)
  /\ (forall packet c', on_incoming_data_ready c = Some (packet, c') ->
                        registration_consistent c').
Proof.
  unfold registration_consistent. intros Hc. split.
  - assert (forall stage remaining payload,
               enqueue_registered_ (deliver (set_recombination c stage remaining) payload) = true
               <-> incoming_queue_ (deliver (set_recombination c stage remaining) payload) <> [])
      as Hdeliver.
    { intros stage remaining payload. unfold deliver.
      cbn [incoming_queue_ enqueue_registered_ set_recombination].
      destruct (_ <? _); cbn [incoming_queue_ enqueue_registered_ set_recombination set_incoming].
      - exact Hc.
      - split; [intros _ | reflexivity]. destruct (incoming_queue_ c); discriminate. }
    unfold on_incoming_packet.
    destruct (GetPacketBoundaryFlag p); [exact Hc | |].
    + destruct (_ <? Cxx.size (GetPayload p)); [exact Hc |].
      destruct (negb _); [exact Hc | apply Hdeliver].
    + destruct (0 <? _); [exact Hc | apply Hdeliver].
  - intros packet c' Hready. unfold on_incoming_data_ready in Hready.
    destruct (incoming_queue_ c) as [| first rest] eqn:Hqueue; [discriminate |].
    injection Hready as _ <-. cbn [incoming_queue_ enqueue_registered_ set_incoming].
    destruct rest as [| second rest].
    + split; [discriminate | congruence].
    + split; [discriminate | intros _]. apply Hc. discriminate.
Qed.

Lemma registration_kept_witness :
  let c := new_acl_connection peer in
  let p := fragment FIRST_AUTOMATICALLY_FLUSHABLE [x00; x00; x01; x00] in
  registration_consistent c
  /\ registration_consistent (on_incoming_packet c p)
  /\ enqueue_registered_ (on_incoming_packet c p) = true.
Proof.
  intros c p.
  assert (registration_consistent c) as Hc
    by (split; [discriminate | intros H; exfalso; apply H; reflexivity]).
  split; [exact Hc |]. split; [| reflexivity].
  exact (proj1 (registration_kept c p Hc)).
Defined.

(** The consumer is handed the PDUs in the order they were queued: taking
    as many as wait returns the queue, oldest first, and leaves it empty
    with the enqueue callback unregistered. *)
Theorem drain_returns_queue_in_order (c : acl_connection) :
  drain (length (incoming_queue_ c)) c
  = (incoming_queue_ c,
     set_incoming c (if incoming_queue_ c is [] then enqueue_registered_ c else false) []).
Proof.
  remember (incoming_queue_ c) as queue eqn:Hqueue.
  revert c Hqueue. induction queue as [| packet rest IH]; intros c Hqueue.
  - cbn [length drain]. rewrite Hqueue. destruct c; reflexivity.
  - cbn [length drain]. unfold on_incoming_data_ready. rewrite <- Hqueue.
    rewrite (IH (set_incoming c (if rest is [] then false else enqueue_registered_ c) rest))
      by reflexivity.
    cbn [enqueue_registered_ set_incoming]. destruct rest; reflexivity.
Qed.

End ReassemblerProperties.

(** * Further properties of the manager *)

Section ManagerProperties.

Lemma Post_Done (handler : option Handler) (closure : Closure) (st st' : impl) :
  Post handler closure st = Done st' ->
  exists h,
    handler = Some h
    /\ acl_connections_ st' = acl_connections_ st
    /\ hci_commands st' = hci_commands st
    /\ handler_tasks st' = handler_tasks st
    /\ hci_handler_tasks st' = hci_handler_tasks st
    /\ connecting_ st' = connecting_ st
    /\ pending_outgoing_connections_ st' = pending_outgoing_connections_ st
    /\ client_handler_ st' = client_handler_ st
    /\ client_callbacks_ st' = client_callbacks_ st
    /\ upper_layer_posts st' = upper_layer_posts st ++ [(h, closure)].
Proof.
  destruct handler as [h |]; [| discriminate]. cbn. intros [= <-].
  exists h. repeat split.
Qed.

Lemma already_connected_iff (st : impl) (address : Address) :
  is_classic_link_already_connected st address = true
  <-> exists handle connection,
        acl_connections_ st !! handle = Some connection
        /\ GetAddress (address_with_type_ connection) = address.
Proof.
  unfold is_classic_link_already_connected, connections_in_order.
  rewrite existsb_exists. split.
  - intros [[handle connection] [Hin Haddress]].
    apply list_elem_of_In in Hin. rewrite merge_sort_Permutation in Hin.
    apply elem_of_map_to_list in Hin. apply Z.eqb_eq in Haddress.
    exists handle, connection. split; assumption.
  - intros (handle & connection & Hlookup & Haddress).
    exists (handle, connection). split.
    + apply list_elem_of_In. rewrite merge_sort_Permutation.
      apply elem_of_map_to_list. exact Hlookup.
    + apply Z.eqb_eq. exact Haddress.
Qed.

(** [is_classic_link_already_connected] answers whether some connection
    record in the table has the address. *)
Theorem is_classic_link_already_connected_spec (st : impl) (address : Address) :
  is_classic_link_already_connected st address = true
  <-> exists handle connection,
        acl_connections_ st !! handle = Some connection
        /\ GetAddress (address_with_type_ connection) = address.
Proof. exact (already_connected_iff st address). Qed.



Lemma post_role_change_keeps (connections : list (Z * acl_connection))
    (bd_addr : Address) (new_role : Role) :
  forall st st' : impl,
    post_role_change st connections bd_addr new_role = Done st' ->
    acl_connections_ st' = acl_connections_ st
    /\ hci_commands st' = hci_commands st
    /\ handler_tasks st' = handler_tasks st
    /\ connecting_ st' = connecting_ st
    /\ pending_outgoing_connections_ st' = pending_outgoing_connections_ st.
Proof.
  induction connections as [| connection_pair rest IH]; intros st st' Hdone; cbn in Hdone.
  - injection Hdone as <-. repeat split.
  - destruct (_ =? bd_addr); [| apply IH; exact Hdone].
    destruct (Post _ _ st) as [st1 |] eqn:Hpost; [| discriminate]. cbn in Hdone.
    apply Post_Done in Hpost as (? & _ & H1 & H2 & H3 & _ & H4 & H5 & _).
    apply IH in Hdone as (? & ? & ? & ? & ?). repeat split; congruence.
Qed.

Lemma on_incoming_packet_keeps (c : acl_connection) (p : AclPacketView) :
  address_with_type_ (on_incoming_packet c p) = address_with_type_ c
  /\ is_disconnected_ (on_incoming_packet c p) = is_disconnected_ c.
Proof.
  unfold on_incoming_packet, deliver.
  destruct (GetPacketBoundaryFlag p); [split; reflexivity | |].
  - destruct (_ <? Cxx.size (GetPayload p)); [split; reflexivity |].
    destruct (negb _); [split; reflexivity |].
    cbn [incoming_queue_ set_recombination]. destruct (_ <? _); split; reflexivity.
  - destruct (0 <? _); [split; reflexivity |].
    cbn [incoming_queue_ set_recombination]. destruct (_ <? _); split; reflexivity.
Qed.

(** What an input from the controller does to the connection table: it
    leaves it alone, adds a fresh record under a handle that was free, or
    replaces one record by one with the same peer that is disconnected if
    the old one was.  No record is ever removed. *)
Lemma controller_input_effect (st st' : impl) (input : ControllerInput) :
  on_controller_input st input = Done st' ->
  acl_connections_ st' = acl_connections_ st
  \/ (exists handle address_with_type,
        acl_connections_ st !! handle = None
        /\ acl_connections_ st'
           = <[handle := new_acl_connection address_with_type]> (acl_connections_ st))
  \/ (exists handle connection connection',
        acl_connections_ st !! handle = Some connection
        /\ acl_connections_ st' = <[handle := connection']> (acl_connections_ st)
        /\ address_with_type_ connection' = address_with_type_ connection
        /\ (is_disconnected_ connection = true -> is_disconnected_ connection' = true)).
Proof.
  assert (forall handle call st0,
             post_to_command_complete_handler st handle call = Done st0 ->
             acl_connections_ st0 = acl_connections_ st) as Hmanagement.
  { intros handle call st0. unfold post_to_command_complete_handler, find_second.
    destruct (acl_connections_ st !! handle) as [connection |]; [| discriminate]. cbn.
    destruct (command_complete_handler_ connection); [| intros [= <-]; reflexivity].
    intros H. apply Post_Done in H as (? & _ & H & _). exact H. }
  destruct input as
    [packet | view | view | view | view | view | view | view | view | view | view | view | view
     | view | view | view | view | view | view ]; cbn [on_controller_input]; intros Hdone.
  - unfold dequeue_and_route_acl_packet_to_connection in Hdone.
    destruct (negb (IsValid packet)); [injection Hdone as <-; left; reflexivity |].
    destruct (GetHandle packet =? kQualcommDebugHandle);
      [injection Hdone as <-; left; reflexivity |].
    destruct (acl_connections_ st !! GetHandle packet) as [connection |] eqn:Hlookup;
      [| injection Hdone as <-; left; reflexivity].
    injection Hdone as <-. right; right.
    exists (GetHandle packet), connection, (on_incoming_packet connection packet).
    split; [exact Hlookup |]. split; [reflexivity |].
    destruct (on_incoming_packet_keeps connection packet) as [-> ->]. split; auto.
  - destruct view as [valid status handle address].
    unfold on_connection_complete, ASSERT in Hdone. cbn in Hdone.
    destruct valid; [| discriminate].
    set (st1 := on_classic_connection_complete st address) in *.
    assert (acl_connections_ st1 = acl_connections_ st) as Hsame
      by (unfold st1, on_classic_connection_complete; destruct (bool_decide _); reflexivity).
    destruct (status =? SUCCESS); cbn in Hdone.
    + unfold count, emplace, check_and_get_connection in Hdone. rewrite Hsame in Hdone.
      destruct (acl_connections_ st !! handle) eqn:Hlookup; [discriminate |].
      cbn in Hdone. rewrite lookup_insert_eq in Hdone. cbn in Hdone.
      destruct (client_handler_ st1); [| discriminate]. cbn in Hdone.
      injection Hdone as <-. right; left.
      exists handle, {| GetAddress := address; GetAddressType := PUBLIC_DEVICE_ADDRESS |}.
      split; [exact Hlookup |].
      match goal with
      | |- acl_connections_ (issue_pending_outgoing_connection ?s ?l) = _ =>
          assert (forall pending s0, acl_connections_ (issue_pending_outgoing_connection s0 pending)
                                     = acl_connections_ s0) as Hloop
            by (induction pending as [| entry rest IH]; intros s0; cbn;
                [reflexivity | destruct (negb _); [reflexivity | apply IH]]);
          rewrite Hloop
      end.
      cbn. rewrite Hsame. reflexivity.
    + apply Post_Done in Hdone as (? & _ & H & _). left. congruence.
  - destruct view as [valid status handle reason].
    unfold on_disconnection_complete, ASSERT, find_second, call_disconnect_callback, count in Hdone.
    cbn in Hdone. destruct valid; [| discriminate].
    destruct (status =? SUCCESS); [| injection Hdone as <-; left; reflexivity].
    destruct (acl_connections_ st !! handle) as [connection |] eqn:Hlookup; [| discriminate].
    cbn in Hdone. destruct (disconnect_handler_ connection); [| discriminate].
    cbn in Hdone. injection Hdone as <-. right; right.
    eexists handle, connection, _. split; [exact Hlookup |]. split; [reflexivity |].
    split; [reflexivity | intros _; reflexivity].
  - destruct view as [valid address class]. unfold on_incoming_connection, ASSERT in Hdone.
    cbn in Hdone. destruct valid; [| discriminate].
    destruct (client_callbacks_ st); [| injection Hdone as <-; left; reflexivity].
    destruct (is_classic_link_already_connected _ _);
      injection Hdone as <-; left; reflexivity.
  - destruct view as [valid status handle role type address].
    unfold on_le_connection_complete, ASSERT in Hdone. cbn in Hdone.
    destruct valid; [| discriminate].
    set (reporting := {| GetAddress := address; GetAddressType := type |}) in *.
    set (st1 := on_common_le_connection_complete st reporting) in *.
    assert (acl_connections_ st1 = acl_connections_ st) as Hsame
      by (unfold st1, on_common_le_connection_complete; destruct (bool_decide _); reflexivity).
    destruct (status =? SUCCESS); cbn in Hdone.
    + unfold count, emplace, check_and_get_connection in Hdone. rewrite Hsame in Hdone.
      destruct (acl_connections_ st !! handle) eqn:Hlookup; [discriminate |].
      cbn in Hdone. rewrite lookup_insert_eq in Hdone. cbn in Hdone.
      apply Post_Done in Hdone as (? & _ & H & _). right; left.
      exists handle, reporting. split; [exact Hlookup |]. rewrite H. cbn. rewrite Hsame.
      reflexivity.
    + apply Post_Done in Hdone as (? & _ & H & _). left. congruence.
  - destruct view as [valid status handle role type address resolvable].
    unfold on_le_enhanced_connection_complete, ASSERT in Hdone. cbn in Hdone.
    destruct valid; [| discriminate].
    set (reporting := if negb (IsEmpty resolvable) then _ else _) in *.
    set (st1 := on_common_le_connection_complete st reporting) in *.
    assert (acl_connections_ st1 = acl_connections_ st) as Hsame
      by (unfold st1, on_common_le_connection_complete; destruct (bool_decide _); reflexivity).
    destruct (status =? SUCCESS); cbn in Hdone.
    + unfold count, emplace, check_and_get_connection in Hdone. rewrite Hsame in Hdone.
      destruct (acl_connections_ st !! handle) eqn:Hlookup; [discriminate |].
      cbn in Hdone. rewrite lookup_insert_eq in Hdone. cbn in Hdone.
      apply Post_Done in Hdone as (? & _ & H & _). right; left.
      exists handle, reporting. split; [exact Hlookup |]. rewrite H. cbn. rewrite Hsame.
      reflexivity.
    + apply Post_Done in Hdone as (? & _ & H & _). left. congruence.
  - destruct view as [valid status handle]. unfold on_le_connection_update_complete in Hdone.
    cbn in Hdone. destruct valid; [| injection Hdone as <-; left; reflexivity]. cbn in Hdone.
    destruct (status =? SUCCESS); [| injection Hdone as <-; left; reflexivity]. cbn in Hdone.
    destruct (acl_connections_ st !! handle) as [connection |] eqn:Hlookup;
      [| injection Hdone as <-; left; reflexivity].
    destruct (is_disconnected_ connection) eqn:Hflag;
      [injection Hdone as <-; left; reflexivity |].
    destruct (on_connection_update_complete_callback_ connection);
      [| injection Hdone as <-; left; reflexivity].
    destruct (on_connection_update_complete_callback_handler_ connection); [| discriminate].
    cbn in Hdone. injection Hdone as <-. right; right.
    eexists handle, connection, _. split; [exact Hlookup |]. split; [reflexivity |].
    split; [reflexivity | rewrite Hflag; discriminate].
  - destruct view as [[] status handle packet_type]; unfold on_connection_packet_type_changed in Hdone;
      cbn in Hdone; [| injection Hdone as <-; left; reflexivity].
    destruct (status =? SUCCESS); cbn in Hdone; [| injection Hdone as <-; left; reflexivity].
    left. eapply Hmanagement. exact Hdone.
  - destruct view as [[] status handle]; unfold on_authentication_complete in Hdone;
      cbn in Hdone; [| injection Hdone as <-; left; reflexivity].
    destruct (status =? SUCCESS); cbn in Hdone; [| injection Hdone as <-; left; reflexivity].
    left. eapply Hmanagement. exact Hdone.
  - destruct view as [[] status handle offset]; unfold on_read_clock_offset_complete in Hdone;
      cbn in Hdone; [| injection Hdone as <-; left; reflexivity].
    destruct (status =? SUCCESS); cbn in Hdone; [| injection Hdone as <-; left; reflexivity].
    left. eapply Hmanagement. exact Hdone.
  - destruct view as [[] status handle mode interval]; unfold on_mode_change in Hdone;
      cbn in Hdone; [| injection Hdone as <-; left; reflexivity].
    destruct (status =? SUCCESS); cbn in Hdone; [| injection Hdone as <-; left; reflexivity].
    left. eapply Hmanagement. exact Hdone.
  - destruct view as [[] status handle service rate bandwidth latency variation];
      unfold on_qos_setup_complete in Hdone;
      cbn in Hdone; [| injection Hdone as <-; left; reflexivity].
    destruct (status =? SUCCESS); cbn in Hdone; [| injection Hdone as <-; left; reflexivity].
    left. eapply Hmanagement. exact Hdone.
  - destruct view as [[] status address role]; unfold on_role_change in Hdone;
      cbn in Hdone; [| injection Hdone as <-; left; reflexivity].
    destruct (status =? SUCCESS); cbn in Hdone; [| injection Hdone as <-; left; reflexivity].
    left. eapply post_role_change_keeps. exact Hdone.
  - destruct view as [[] status handle direction service rate bucket bandwidth latency];
      unfold on_flow_specification_complete in Hdone;
      cbn in Hdone; [| injection Hdone as <-; left; reflexivity].
    destruct (status =? SUCCESS); cbn in Hdone; [| injection Hdone as <-; left; reflexivity].
    left. eapply Hmanagement. exact Hdone.
  - destruct view as [[] handle]; unfold on_flush_occurred in Hdone;
      cbn in Hdone; [| injection Hdone as <-; left; reflexivity].
    left. eapply Hmanagement. exact Hdone.
  - destruct view as [[]]; cbn in Hdone; [injection Hdone as <-; left; reflexivity | discriminate].
  - destruct view as [[]]; cbn in Hdone; [injection Hdone as <-; left; reflexivity | discriminate].
  - destruct view as [[]]; cbn in Hdone; [injection Hdone as <-; left; reflexivity | discriminate].
  - destruct view as [[]]; cbn in Hdone; [injection Hdone as <-; left; reflexivity | discriminate].
Qed.

(** No input from the controller removes a connection record, changes the
    peer it belongs to or clears its [is_disconnected_] flag. *)
Theorem controller_keeps_connections
    (st st' : impl) (input : ControllerInput) (handle : Z) (connection : acl_connection) :
  on_controller_input st input = Done st' ->
  acl_connections_ st !! handle = Some connection ->
  exists connection',
    acl_connections_ st' !! handle = Some connection'
    /\ address_with_type_ connection' = address_with_type_ connection
    /\ (is_disconnected_ connection = true -> is_disconnected_ connection' = true).
Proof.
  intros Hdone Hlookup.
  destruct (controller_input_effect st st' input Hdone)
    as [-> | [(h & awt & Hfree & ->) | (h & c & c' & Hold & -> & Haddress & Hflag)]].
  - exists connection. auto.
  - exists connection. rewrite lookup_insert_ne by congruence. auto.
  - destruct (decide (h = handle)) as [-> | Hother].
    + exists c'. rewrite lookup_insert_eq. replace connection with c by congruence. auto.
    + exists connection. rewrite lookup_insert_ne by exact Hother. auto.
Qed.

Lemma controller_keeps_connections_witness :
  let input :=
    AclPacket (fragment FIRST_AUTOMATICALLY_FLUSHABLE [x00; x00; x01; x00]) in
  exists st' connection connection',
    on_controller_input disconnected_link input = Done st'
    /\ acl_connections_ disconnected_link !! 0x40 = Some connection
    /\ acl_connections_ st' !! 0x40 = Some connection'
    /\ incoming_queue_ connection' = [[x00; x00; x01; x00]]
    /\ is_disconnected_ connection' = true.
Proof.
  intros input.
  assert (exists st', on_controller_input disconnected_link input = Done st'
                      /\ incoming_queue_ <$> (acl_connections_ st' !! 0x40)
                         = Some [[x00; x00; x01; x00]]) as (st' & Hdone & Hqueue)
    by (eexists; split; vm_compute; reflexivity).
  assert (acl_connections_ disconnected_link !! 0x40
          = Some (set_disconnect (new_acl_connection peer) true 0x13 (Some 2%nat) None))
    as Hlookup by (vm_compute; reflexivity).
  destruct (controller_keeps_connections disconnected_link st' input 0x40 _ Hdone Hlookup)
    as (connection' & Hlookup' & _ & Hflag).
  exists st', (set_disconnect (new_acl_connection peer) true 0x13 (Some 2%nat) None), connection'.
  rewrite Hlookup' in Hqueue. injection Hqueue as Hqueue.
  split; [exact Hdone |]. split; [exact Hlookup |]. split; [exact Hlookup' |].
  split; [exact Hqueue | apply Hflag; reflexivity].
Defined.




Lemma connection_request_answer (st : impl) (request : ConnectionRequestView.t) :
  ConnectionRequestView.IsValid request = true ->
  let address := ConnectionRequestView.GetBdAddr request in
  let answer :=
    match client_callbacks_ st with
    | None => RejectConnectionRequestBuilder address LIMITED_RESOURCES
    | Some _ =>
        if is_classic_link_already_connected st address
        then RejectConnectionRequestBuilder address UNACCEPTABLE_BD_ADDR
        else AcceptConnectionRequestBuilder address BECOME_MASTER
    end in
  exists st',
    on_incoming_connection st request = Done st'
    /\ hci_commands st' = hci_commands st ++ [answer]
    /\ acl_connections_ st' = acl_connections_ st
    /\ connecting_ st'
       = (if client_callbacks_ st is None then connecting_ st else {[address]} ∪ connecting_ st).
Proof.
  intros Hvalid address answer. subst answer.
  unfold on_incoming_connection, ASSERT. rewrite Hvalid. fold address.
  destruct (client_callbacks_ st); [| eexists; repeat split].
  change (is_classic_link_already_connected
            (set_connecting st ({[address]} ∪ connecting_ st)) address)
    with (is_classic_link_already_connected st address).
  destruct (is_classic_link_already_connected st address); eexists; repeat split.
Qed.

(** Every valid CONNECTION_REQUEST is answered by exactly one command for
    the requesting peer: a rejection for limited resources while no upper
    layer has registered; otherwise the peer joins [connecting_], and the
    answer is a rejection for an unacceptable address when a link to the
    peer exists and an acceptance as master when none does.  The
    connection table is not touched. *)
Theorem connection_request_is_answered (st : impl) (request : ConnectionRequestView.t) :
  ConnectionRequestView.IsValid request = true ->
  let address := ConnectionRequestView.GetBdAddr request in
  let answer :=
    match client_callbacks_ st with
    | None => RejectConnectionRequestBuilder address LIMITED_RESOURCES
    | Some _ =>
        if is_classic_link_already_connected st address
        then RejectConnectionRequestBuilder address UNACCEPTABLE_BD_ADDR
        else AcceptConnectionRequestBuilder address BECOME_MASTER
    end in
  exists st',
    on_incoming_connection st request = Done st'
    /\ hci_commands st' = hci_commands st ++ [answer]
    /\ acl_connections_ st' = acl_connections_ st
    /\ connecting_ st'
       = (if client_callbacks_ st is None then connecting_ st else {[address]} ∪ connecting_ st).
Proof. exact (connection_request_answer st request). Qed.

Lemma connection_request_is_answered_witness :
  let request :=
    {| ConnectionRequestView.IsValid := true;
       ConnectionRequestView.GetBdAddr := 0xAABBCCDDEEFF;
       ConnectionRequestView.GetClassOfDevice := 0x1F00 |} in
  exists st',
    on_incoming_connection live_link request = Done st'
    /\ hci_commands st'
       = [ReadDefaultLinkPolicySettingsBuilder;
          RejectConnectionRequestBuilder 0xAABBCCDDEEFF UNACCEPTABLE_BD_ADDR].
Proof.
  intros request.
  destruct (connection_request_is_answered live_link request eq_refl)
    as (st' & Hdone & Hcommands & _).
  exists st'. split; [exact Hdone |]. rewrite Hcommands. vm_compute. reflexivity.
Defined.

(** The loop over the pending requests issues the oldest request whose
    peer has no link yet, after dropping the older ones whose peers have;
    when every pending peer has a link the queue is emptied and nothing is
    issued. *)
Theorem pending_requests_are_issued_in_order
    (st : impl) (skipped rest : list (Address * CommandBuilder))
    (address : Address) (packet : CommandBuilder) :
  forallb (fun entry => is_classic_link_already_connected st (fst entry)) skipped = true ->
  issue_pending_outgoing_connection st skipped = set_pending_outgoing_connections st []
  /\ (is_classic_link_already_connected st address = false ->
      issue_pending_outgoing_connection st (skipped ++ (address, packet) :: rest)
      = EnqueueCommand
          (set_connecting (set_pending_outgoing_connections st rest)
             ({[address]} ∪ connecting_ st))
          packet).
Proof.
  induction skipped as [| entry skipped IH]; intros Hskipped.
  - split; [reflexivity |]. intros Hfree. cbn. rewrite Hfree. reflexivity.
  - cbn in Hskipped. apply andb_prop in Hskipped as [Hentry Hskipped].
    destruct (IH Hskipped) as [Hall Hissue].
    cbn [issue_pending_outgoing_connection app]. rewrite Hentry. cbn [negb].
    split; assumption.
Qed.

Lemma pending_requests_are_issued_in_order_witness :
  let st := set_pending_outgoing_connections live_link
              [(0xAABBCCDDEEFF, create 0xAABBCCDDEEFF); (address_B, create address_B);
               (address_C, create address_C)] in
  hci_commands (issue_pending_outgoing_connection st (pending_outgoing_connections_ st))
  = [ReadDefaultLinkPolicySettingsBuilder; create address_B]
  /\ pending_outgoing_connections_
       (issue_pending_outgoing_connection st (pending_outgoing_connections_ st))
     = [(address_C, create address_C)].
Proof.
  intros st.
  destruct (pending_requests_are_issued_in_order st
              [(0xAABBCCDDEEFF, create 0xAABBCCDDEEFF)] [(address_C, create address_C)]
              address_B (create address_B)) as [_ Hissue]; [vm_compute; reflexivity |].
  assert (is_classic_link_already_connected st address_B = false) as Hfree
    by (vm_compute; reflexivity).
  specialize (Hissue Hfree).
  split.
  - exact (f_equal hci_commands Hissue).
  - exact (f_equal pending_outgoing_connections_ Hissue).
Defined.

Lemma issue_pending_connecting (pending : list (Address * CommandBuilder)) (st : impl) :
  let st' := issue_pending_outgoing_connection st pending in
  connecting_ st' = connecting_ st
  \/ exists address,
       is_classic_link_already_connected st address = false
       /\ connecting_ st' = {[address]} ∪ connecting_ st.
Proof.
  induction pending as [| entry rest IH]; cbn.
  - left. reflexivity.
  - destruct (is_classic_link_already_connected st (fst entry)) eqn:Hentry; cbn.
    + exact IH.
    + right. exists (fst entry). split; [exact Hentry | reflexivity].
Qed.

(** Once a valid CONNECTION_COMPLETE for a peer has been handled, with
    whatever status, the peer is no longer in [connecting_]. *)
Theorem connection_complete_clears_connecting
    (st st' : impl) (connection_complete : ConnectionCompleteView.t) :
  on_connection_complete st connection_complete = Done st' ->
  ConnectionCompleteView.GetBdAddr connection_complete ∉ connecting_ st'.
Proof.
  destruct connection_complete as [valid status handle address].
  unfold on_connection_complete, ASSERT. cbn. intros Hdone.
  destruct valid; [| discriminate].
  set (st1 := on_classic_connection_complete st address) in *.
  assert (address ∉ connecting_ st1) as Hgone.
  { unfold st1, on_classic_connection_complete. destruct (bool_decide_reflect (address ∈ connecting_ st)).
    - cbn. intros Hin. apply elem_of_difference in Hin as [_ Hnot].
      apply Hnot. apply elem_of_singleton. reflexivity.
    - assumption. }
  destruct (status =? SUCCESS); cbn in Hdone.
  - unfold count, emplace, check_and_get_connection in Hdone.
    destruct (acl_connections_ st1 !! handle) eqn:Hlookup; [discriminate |].
    cbn in Hdone. rewrite lookup_insert_eq in Hdone. cbn in Hdone.
    destruct (client_handler_ st1); [| discriminate]. cbn in Hdone.
    injection Hdone as <-.
    match goal with
    | |- _ ∉ connecting_ (issue_pending_outgoing_connection ?s ?l) =>
        destruct (issue_pending_connecting l s) as [-> | (other & Hfree & ->)];
        [exact Hgone |]
    end.
    cbn. intros Hin. apply elem_of_union in Hin as [Hin | Hin]; [| exact (Hgone Hin)].
    apply elem_of_singleton in Hin. subst other.
    assert (is_classic_link_already_connected
              (Build_impl (client_callbacks_ st1) (client_handler_ st1) (le_client_callbacks_ st1)
                 (le_client_handler_ st1)
                 (<[handle := new_acl_connection
                               {| GetAddress := address;
                                  GetAddressType := PUBLIC_DEVICE_ADDRESS |}]>
                    (acl_connections_ st1))
                 (connecting_ st1) (connecting_le_ st1) (pending_outgoing_connections_ st1)
                 (default_link_policy_settings_ st1) (hci_commands st1) (handler_tasks st1)
                 (hci_handler_tasks st1) (upper_layer_posts st1)) address = true) as Hnow.
    { apply already_connected_iff. eexists handle, _.
      split; [apply lookup_insert_eq | reflexivity]. }
    unfold is_classic_link_already_connected, connections_in_order in Hfree, Hnow.
    cbn in Hfree, Hnow. congruence.
  - apply Post_Done in Hdone as (? & _ & _ & _ & _ & _ & -> & _). exact Hgone.
Qed.

Lemma connection_complete_clears_connecting_witness :
  let st := set_connecting live_link {[address_A]} in
  exists st',
    on_connection_complete st (connection_complete 0x04 0 address_A) = Done st'
    /\ address_A ∈ connecting_ st
    /\ address_A ∉ connecting_ st'.
Proof.
  intros st.
  assert (exists st', on_connection_complete st (connection_complete 0x04 0 address_A) = Done st')
    as [st' Hdone] by (eexists; vm_compute; reflexivity).
  exists st'. split; [exact Hdone |]. split.
  - exact (proj2 (elem_of_singleton (C := gset Address) address_A address_A) eq_refl).
  - exact (connection_complete_clears_connecting st st' _ Hdone).
Defined.

Lemma issue_pending_keeps (pending : list (Address * CommandBuilder)) (st : impl) :
  let st' := issue_pending_outgoing_connection st pending in
  acl_connections_ st' = acl_connections_ st
  /\ hci_handler_tasks st' = hci_handler_tasks st
  /\ upper_layer_posts st' = upper_layer_posts st.
Proof.
  induction pending as [| entry rest IH]; cbn.
  - repeat split.
  - destruct (negb _); [repeat split | exact IH].
Qed.

(** A successful CONNECTION_COMPLETE for a handle that is free, with the
    upper layer registered, adds a fresh record for the peer under the
    handle, with a public device address and not disconnected, asks the
    scheduler to register the handle, and reports [OnConnectSuccess] with a
    proxy for the handle, the peer and the master role. *)
Theorem connection_complete_creates_record
    (st : impl) (handle : Z) (address : Address) (handler : Handler) :
  client_handler_ st = Some handler ->
  acl_connections_ st !! handle = None ->
  exists st',
    on_connection_complete st (connection_complete SUCCESS handle address) = Done st'
    /\ acl_connections_ st'
       = <[handle := new_acl_connection
                       {| GetAddress := address; GetAddressType := PUBLIC_DEVICE_ADDRESS |}]>
           (acl_connections_ st)
    /\ hci_handler_tasks st' = hci_handler_tasks st ++ [Register handle]
    /\ upper_layer_posts st'
       = upper_layer_posts st
         ++ [(handler,
              OnConnectSuccess (client_callbacks_ st)
                {| classic_handle_ := handle; classic_address_ := address;
                   classic_role_ := MASTER |})].
Proof.
  intros Hhandler Hfree. unfold on_connection_complete, ASSERT, connection_complete. cbn.
  set (st1 := on_classic_connection_complete st address).
  assert (client_handler_ st1 = client_handler_ st
          /\ client_callbacks_ st1 = client_callbacks_ st
          /\ acl_connections_ st1 = acl_connections_ st
          /\ hci_handler_tasks st1 = hci_handler_tasks st
          /\ upper_layer_posts st1 = upper_layer_posts st) as (H1 & H2 & H3 & H4 & H5)
    by (unfold st1, on_classic_connection_complete; destruct (bool_decide _); repeat split).
  unfold count, emplace, check_and_get_connection. rewrite H3, Hfree. cbn.
  rewrite lookup_insert_eq. cbn. rewrite H1, Hhandler. cbn.
  eexists. split; [reflexivity |].
  match goal with
  | |- context [issue_pending_outgoing_connection ?s ?l] =>
      destruct (issue_pending_keeps l s) as (-> & -> & ->)
  end.
  cbn. rewrite H2, H3, H4, H5. repeat split.
Qed.

Lemma connection_complete_creates_record_witness :
  exists st',
    on_connection_complete live_link (connection_complete SUCCESS 0x42 address_B) = Done st'
    /\ acl_connections_ st' !! 0x42
       = Some (new_acl_connection
                 {| GetAddress := address_B; GetAddressType := PUBLIC_DEVICE_ADDRESS |})
    /\ hci_handler_tasks st' = [Register 0x42].
Proof.
  destruct (connection_complete_creates_record live_link 0x42 address_B 1%nat)
    as (st' & Hdone & Htable & Hscheduler & _); [reflexivity | vm_compute; reflexivity |].
  exists st'. split; [exact Hdone |]. split.
  - rewrite Htable. apply lookup_insert_eq.
  - rewrite Hscheduler. reflexivity.
Defined.

(** With nothing in flight, a request for a peer that already has a link
    is dropped: no command, no entry in [connecting_], nothing queued. *)
Theorem create_connection_deduplicates
    (st : impl) (address : Address) (handle : Z) (connection : acl_connection) :
  client_callbacks_ st <> None ->
  connecting_ st = ∅ ->
  acl_connections_ st !! handle = Some connection ->
  GetAddress (address_with_type_ connection) = address ->
  create_connection st address = Done st.
Proof.
  intros Hcallbacks Hidle Hlookup Haddress. unfold create_connection, ASSERT.
  rewrite bool_decide_eq_true_2 by exact Hcallbacks.
  rewrite bool_decide_eq_true_2 by exact Hidle.
  assert (is_classic_link_already_connected st address = true) as ->
    by (apply already_connected_iff; eauto).
  reflexivity.
Qed.

Lemma create_connection_deduplicates_witness :
  create_connection live_link 0xAABBCCDDEEFF = Done live_link.
Proof.
  apply (create_connection_deduplicates live_link 0xAABBCCDDEEFF 0x40
           (set_disconnect (new_acl_connection peer) false 0 (Some 2%nat) (Some 7%nat))).
  - discriminate.
  - reflexivity.
  - vm_compute. reflexivity.
  - reflexivity.
Defined.

(** [Finish] on a disconnected connection asks the scheduler to unregister
    the handle and posts [cleanup]; when [cleanup] runs the handle leaves
    the connection table, the other records stay, and any later operation
    of a proxy for the handle stops at the [ASSERT] of
    [check_and_get_connection]. *)
Theorem finished_connection_is_removed
    (st : impl) (handle : Z) (connection : acl_connection) :
  acl_connections_ st !! handle = Some connection ->
  is_disconnected_ connection = true ->
  exists st1 st2,
    Finish st handle = Done st1
    /\ hci_handler_tasks st1 = hci_handler_tasks st ++ [Unregister handle]
    /\ handler_tasks st1 = handler_tasks st ++ [Bound.cleanup handle]
    /\ run st1 (Bound.cleanup handle) = Done st2
    /\ acl_connections_ st2 = delete handle (acl_connections_ st)
    /\ forall operation, proxy_call st2 handle operation = Crash AssertFailed.
Proof.
  intros Hlookup Hflag. unfold Finish, check_and_get_connection, ASSERT.
  rewrite Hlookup. cbn. rewrite Hflag.
  eexists. eexists. split; [reflexivity |]. split; [reflexivity |]. split; [reflexivity |].
  cbn. unfold cleanup, ASSERT, count. cbn. rewrite Hlookup. cbn.
  split; [reflexivity |]. split; [reflexivity |].
  intros operation.
  destruct operation; cbn [proxy_call];
    unfold Disconnect, ChangeConnectionPacketType, AuthenticationRequested,
      SetConnectionEncryption, ChangeConnectionLinkKey, ReadClockOffset, HoldMode, SniffMode,
      ExitSniffMode, QosSetup, RoleDiscovery, ReadLinkPolicySettings, WriteLinkPolicySettings,
      FlowSpecification, SniffSubrating, Flush, ReadAutomaticFlushTimeout,
      WriteAutomaticFlushTimeout, ReadTransmitPowerLevel, ReadLinkSupervisionTimeout,
      WriteLinkSupervisionTimeout, ReadFailedContactCounter, ResetFailedContactCounter,
      ReadLinkQuality, ReadAfhChannelMap, ReadRssi, ReadRemoteVersionInformation,
      ReadRemoteSupportedFeatures, ReadRemoteExtendedFeatures, ReadClock, LeConnectionUpdate,
      post_unless_disconnected, check_and_get_connection;
    cbn; rewrite lookup_delete_eq; reflexivity.
Qed.

Lemma finished_connection_is_removed_witness :
  exists st1 st2,
    Finish disconnected_link 0x40 = Done st1
    /\ run st1 (Bound.cleanup 0x40) = Done st2
    /\ acl_connections_ st2 = ∅
    /\ proxy_call st2 0x40 ReadRssi_ = Crash AssertFailed.
Proof.
  destruct (finished_connection_is_removed disconnected_link 0x40
              (set_disconnect (new_acl_connection peer) true 0x13 (Some 2%nat) None))
    as (st1 & st2 & Hfinish & _ & _ & Hcleanup & Htable & Hstale);
    [vm_compute; reflexivity | reflexivity |].
  exists st1, st2. split; [exact Hfinish |]. split; [exact Hcleanup |].
  split; [rewrite Htable; vm_compute; reflexivity | apply Hstale].
Defined.

(** A disconnect callback registered after the connection was disconnected
    is posted at once, on the handler given with it and with the reason
    the DISCONNECTION_COMPLETE event brought; the slot is empty again
    afterwards. *)
Theorem late_disconnect_callback_is_posted
    (st : impl) (handle : Z) (connection : acl_connection)
    (on_disconnect : option OnceCallback) (handler : Handler) :
  acl_connections_ st !! handle = Some connection ->
  is_disconnected_ connection = true ->
  exists st',
    RegisterDisconnectCallback st handle on_disconnect (Some handler) = Done st'
    /\ upper_layer_posts st'
       = upper_layer_posts st ++ [(handler, RunOnce on_disconnect (disconnect_reason_ connection))]
    /\ acl_connections_ st'
       = <[handle := set_disconnect connection true (disconnect_reason_ connection)
                       (Some handler) None]> (acl_connections_ st)
    /\ hci_commands st' = hci_commands st.
Proof.
  intros Hlookup Hflag.
  unfold RegisterDisconnectCallback, check_and_get_connection, call_disconnect_callback.
  rewrite Hlookup. cbn. rewrite Hflag. cbn.
  eexists. repeat split.
Qed.

Lemma late_disconnect_callback_is_posted_witness :
  exists st',
    RegisterDisconnectCallback disconnected_link 0x40 (Some 9%nat) (Some 5%nat) = Done st'
    /\ upper_layer_posts st' = [(5%nat, RunOnce (Some 9%nat) 0x13)].
Proof.
  destruct (late_disconnect_callback_is_posted disconnected_link 0x40
              (set_disconnect (new_acl_connection peer) true 0x13 (Some 2%nat) None)
              (Some 9%nat) 5%nat) as (st' & Hdone & Hposts & _);
    [vm_compute; reflexivity | reflexivity |].
  exists st'. split; [exact Hdone | exact Hposts].
Defined.

Lemma LeConnectionUpdate_live
    (st : impl) (handle : Z) (connection : acl_connection)
    (conn_interval_min conn_interval_max conn_latency supervision_timeout
     min_ce_length max_ce_length : Z)
    (done_callback : option OnceCallback) (handler : option Handler) :
  acl_connections_ st !! handle = Some connection ->
  is_disconnected_ connection = false ->
  on_connection_update_complete_callback_ connection = None ->
  let in_range :=
    connection_update_parameters_in_range conn_interval_min conn_interval_max conn_latency
      supervision_timeout in
  exists st',
    LeConnectionUpdate st handle conn_interval_min conn_interval_max conn_latency
      supervision_timeout min_ce_length max_ce_length done_callback handler
    = Done (in_range, st')
    /\ acl_connections_ st'
       = <[handle := set_connection_update connection done_callback handler]>
           (acl_connections_ st)
    /\ handler_tasks st'
       = (if in_range
          then handler_tasks st
               ++ [Bound.handle_le_connection_update handle conn_interval_min conn_interval_max
                     conn_latency supervision_timeout min_ce_length max_ce_length]
          else handler_tasks st)
    /\ hci_commands st' = hci_commands st.
Proof.
  intros Hlookup Hlive Hfree in_range. subst in_range.
  unfold LeConnectionUpdate, check_and_get_connection, connection_update_parameters_in_range.
  rewrite Hlookup. cbn [bind]. rewrite Hlive, Hfree.
  rewrite bool_decide_eq_false_2 by (intros H; apply H; reflexivity).
  destruct (Z.ltb_spec conn_interval_min 6); destruct (Z.leb_spec 6 conn_interval_min); try lia;
    cbn [orb andb]; [eexists; repeat split |].
  destruct (Z.ltb_spec 3200 conn_interval_min); destruct (Z.leb_spec conn_interval_min 3200);
    try lia; cbn [orb andb]; [eexists; repeat split |].
  destruct (Z.ltb_spec conn_interval_max 6); destruct (Z.leb_spec 6 conn_interval_max); try lia;
    cbn [orb andb]; [eexists; repeat split |].
  destruct (Z.ltb_spec 3200 conn_interval_max); destruct (Z.leb_spec conn_interval_max 3200);
    try lia; cbn [orb andb]; [eexists; repeat split |].
  destruct (Z.ltb_spec 499 conn_latency); destruct (Z.leb_spec conn_latency 499);
    try lia; cbn [orb andb]; [eexists; repeat split |].
  destruct (Z.ltb_spec supervision_timeout 10); destruct (Z.leb_spec 10 supervision_timeout);
    try lia; cbn [orb andb]; [eexists; repeat split |].
  destruct (Z.ltb_spec 3200 supervision_timeout); destruct (Z.leb_spec supervision_timeout 3200);
    try lia; cbn [orb andb]; eexists; repeat split.
Qed.

(** On a live connection with no update pending, [LeConnectionUpdate]
    returns true exactly when the four parameters are in range, and posts
    the update then and only then; in both cases the callback and its
    handler are stored in the connection record. *)
Theorem LeConnectionUpdate_checks_ranges
    (st : impl) (handle : Z) (connection : acl_connection)
    (conn_interval_min conn_interval_max conn_latency supervision_timeout
     min_ce_length max_ce_length : Z)
    (done_callback : option OnceCallback) (handler : option Handler) :
  acl_connections_ st !! handle = Some connection ->
  is_disconnected_ connection = false ->
  on_connection_update_complete_callback_ connection = None ->
  let in_range :=
    connection_update_parameters_in_range conn_interval_min conn_interval_max conn_latency
      supervision_timeout in
  exists st',
    LeConnectionUpdate st handle conn_interval_min conn_interval_max conn_latency
      supervision_timeout min_ce_length max_ce_length done_callback handler
    = Done (in_range, st')
    /\ acl_connections_ st'
       = <[handle := set_connection_update connection done_callback handler]>
           (acl_connections_ st)
    /\ handler_tasks st'
       = (if in_range
          then handler_tasks st
               ++ [Bound.handle_le_connection_update handle conn_interval_min conn_interval_max
                     conn_latency supervision_timeout min_ce_length max_ce_length]
          else handler_tasks st)
    /\ hci_commands st' = hci_commands st.
Proof.
  exact (LeConnectionUpdate_live st handle connection conn_interval_min conn_interval_max
           conn_latency supervision_timeout min_ce_length max_ce_length done_callback handler).
Qed.

Lemma LeConnectionUpdate_checks_ranges_witness :
  exists st',
    LeConnectionUpdate le_link 0x41 0x0018 0x0028 0 0x01F4 0x0002 0x0C00 (Some 7%nat) (Some 3%nat)
    = Done (true, st')
    /\ handler_tasks st'
       = [Bound.handle_le_connection_update 0x41 0x0018 0x0028 0 0x01F4 0x0002 0x0C00].
Proof.
  destruct (LeConnectionUpdate_checks_ranges le_link 0x41 (new_acl_connection le_peer)
              0x0018 0x0028 0 0x01F4 0x0002 0x0C00 (Some 7%nat) (Some 3%nat))
    as (st' & Hdone & _ & Htasks & _); [vm_compute; reflexivity | reflexivity | reflexivity |].
  exists st'. split; [exact Hdone | exact Htasks].
Defined.

(** An accepted [LeConnectionUpdate] followed by the successful
    LE_CONNECTION_UPDATE_COMPLETE for the handle posts the callback once,
    on its handler and with status SUCCESS, and empties the slot: the
    connection record is the one before the update, and the next update
    is accepted again. *)
Theorem connection_update_round_trip
    (st : impl) (handle : Z) (connection : acl_connection)
    (conn_interval_min conn_interval_max conn_latency supervision_timeout
     min_ce_length max_ce_length : Z)
    (done_callback : OnceCallback) (handler : Handler) :
  acl_connections_ st !! handle = Some connection ->
  is_disconnected_ connection = false ->
  on_connection_update_complete_callback_ connection = None ->
  on_connection_update_complete_callback_handler_ connection = None ->
  connection_update_parameters_in_range conn_interval_min conn_interval_max conn_latency
    supervision_timeout = true ->
  exists st1 st2,
    LeConnectionUpdate st handle conn_interval_min conn_interval_max conn_latency
      supervision_timeout min_ce_length max_ce_length (Some done_callback) (Some handler)
    = Done (true, st1)
    /\ on_le_connection_update_complete st1 (connection_update_complete handle) = Done st2
    /\ upper_layer_posts st2
       = upper_layer_posts st ++ [(handler, RunOnce (Some done_callback) SUCCESS)]
    /\ acl_connections_ st2 = acl_connections_ st.
Proof.
  intros Hlookup Hlive Hfree Hhandler Hrange.
  destruct (LeConnectionUpdate_live st handle connection conn_interval_min
              conn_interval_max conn_latency supervision_timeout min_ce_length max_ce_length
              (Some done_callback) (Some handler) Hlookup Hlive Hfree)
    as (st1 & Hdone & Htable & _ & _).
  rewrite Hrange in Hdone. exists st1.
  assert (upper_layer_posts st1 = upper_layer_posts st) as Hposts.
  { revert Hdone. unfold LeConnectionUpdate, check_and_get_connection.
    rewrite Hlookup. cbn [bind]. rewrite Hlive, Hfree.
    rewrite bool_decide_eq_false_2 by (intros H; apply H; reflexivity).
    destruct (_ || _); intros [= <-]; reflexivity. }
  eexists. split; [exact Hdone |].
  unfold on_le_connection_update_complete, connection_update_complete. cbn.
  rewrite Htable, lookup_insert_eq. cbn. rewrite Hlive. cbn.
  split; [reflexivity |]. split; [rewrite Hposts; reflexivity |].
  cbn. rewrite Htable, insert_insert_eq. apply insert_id. rewrite Hlookup. f_equal.
  destruct connection. cbn in *. subst. reflexivity.
Qed.

Lemma connection_update_round_trip_witness :
  exists st1 st2,
    LeConnectionUpdate le_link 0x41 0x0018 0x0028 0 0x01F4 0x0002 0x0C00 (Some 7%nat) (Some 3%nat)
    = Done (true, st1)
    /\ on_le_connection_update_complete st1 (connection_update_complete 0x41) = Done st2
    /\ upper_layer_posts st2 = [(3%nat, RunOnce (Some 7%nat) SUCCESS)]
    /\ acl_connections_ st2 = acl_connections_ le_link.
Proof.
  exact (connection_update_round_trip le_link 0x41 (new_acl_connection le_peer)
           0x0018 0x0028 0 0x01F4 0x0002 0x0C00 7%nat 3%nat
           eq_refl eq_refl eq_refl eq_refl eq_refl).
Defined.

Lemma run_posted_task (st : impl) (task : Bound.t) (st2 : impl) :
  handler_tasks st = [] ->
  run (Build_impl (client_callbacks_ st) (client_handler_ st) (le_client_callbacks_ st)
         (le_client_handler_ st) (acl_connections_ st) (connecting_ st) (connecting_le_ st)
         (pending_outgoing_connections_ st) (default_link_policy_settings_ st)
         (hci_commands st) [] (hci_handler_tasks st) (upper_layer_posts st)) task = Done st2 ->
  run_handler 1 (handler_Post st task) = Done st2.
Proof.
  intros Hidle Hrun. cbn. unfold take_task. cbn. rewrite Hidle. cbn.
  rewrite Hrun. reflexivity.
Qed.

(** An operation of a proxy that returns true leads to exactly one HCI
    command, and the command names the proxy's handle: when the manager's
    handler, idle before the call, runs the task the operation posted, one
    command is enqueued and no task is left. *)
Theorem accepted_operation_sends_one_command
    (st st1 : impl) (handle : Z) (operation : ProxyOperation) :
  handler_tasks st = [] ->
  proxy_call st handle operation = Done (true, st1) ->
  exists st2 command,
    run_handler 1 st1 = Done st2
    /\ handler_tasks st2 = []
    /\ hci_commands st2 = hci_commands st ++ [command]
    /\ command_handle command = Some handle.
Proof.
  intros Hidle Hcall.
  destruct operation; cbn [proxy_call] in Hcall;
    unfold Disconnect, ChangeConnectionPacketType, AuthenticationRequested,
      SetConnectionEncryption, ChangeConnectionLinkKey, ReadClockOffset, HoldMode, SniffMode,
      ExitSniffMode, QosSetup, RoleDiscovery, ReadLinkPolicySettings, WriteLinkPolicySettings,
      FlowSpecification, SniffSubrating, Flush, ReadAutomaticFlushTimeout,
      WriteAutomaticFlushTimeout, ReadTransmitPowerLevel, ReadLinkSupervisionTimeout,
      WriteLinkSupervisionTimeout, ReadFailedContactCounter, ResetFailedContactCounter,
      ReadLinkQuality, ReadAfhChannelMap, ReadRssi, ReadRemoteVersionInformation,
      ReadRemoteSupportedFeatures, ReadRemoteExtendedFeatures, ReadClock, LeConnectionUpdate,
      post_unless_disconnected, check_and_get_connection in Hcall;
    destruct (acl_connections_ st !! handle) as [connection |] eqn:Hlookup; try discriminate;
    cbn [bind] in Hcall;
    destruct (is_disconnected_ connection); try discriminate.
  all: try (injection Hcall as <-;
            eexists; eexists;
            split; [apply run_posted_task;
                    [exact Hidle
                    | cbn; unfold handle_disconnect, handle_change_connection_packet_type,
                        ASSERT, count; cbn; rewrite ?Hlookup; reflexivity]
                   | repeat split]).
  destruct (bool_decide _); [discriminate |].
  destruct (_ || _); [discriminate |].
  injection Hcall as <-.
  eexists. eexists. split.
  - cbn. unfold take_task. cbn. rewrite Hidle. cbn. reflexivity.
  - repeat split.
Qed.

Lemma accepted_operation_sends_one_command_witness :
  exists st1 st2,
    proxy_call live_link 0x40 ReadRemoteExtendedFeatures_ = Done (true, st1)
    /\ run_handler 1 st1 = Done st2
    /\ hci_commands st2
       = [ReadDefaultLinkPolicySettingsBuilder; ReadRemoteExtendedFeaturesBuilder 0x40 1].
Proof.
  assert (proxy_call live_link 0x40 ReadRemoteExtendedFeatures_
          = Done (true, handler_Post live_link (Bound.handle_read_remote_extended_features 0x40)))
    as Hcall by (vm_compute; reflexivity).
  destruct (accepted_operation_sends_one_command live_link _ 0x40 _ eq_refl Hcall)
    as (st2 & command & Hrun & _).
  exists (handler_Post live_link (Bound.handle_read_remote_extended_features 0x40)), st2.
  split; [exact Hcall |]. split; [exact Hrun |].
  vm_compute in Hrun. injection Hrun as <-. vm_compute. reflexivity.
Defined.

(** Callbacks registered for a connection receive its events: after
    [RegisterCallbacks], a successful MODE_CHANGE for the handle is posted
    on the registered handler, bound to the registered callbacks.  After
    [UnregisterCallbacks] the handler is still in the record, so the event
    is still posted, bound to a null callbacks pointer. *)
Theorem registered_callbacks_receive_events
    (st : impl) (handle : Z) (connection : acl_connection)
    (callbacks : CallbacksPtr) (handler : Handler) (current_mode interval : Z) :
  acl_connections_ st !! handle = Some connection ->
  command_complete_callbacks_ connection = None ->
  exists st1 st2 st3 st4,
    RegisterCallbacks st handle (Some callbacks) (Some handler) = Done st1
    /\ on_mode_change st1 (mode_change handle current_mode interval) = Done st2
    /\ upper_layer_posts st2
       = upper_layer_posts st
         ++ [(handler,
              ConnectionManagementCallbacks (Some callbacks) (OnModeChange current_mode interval))]
    /\ UnregisterCallbacks st1 handle (Some callbacks) = Done st3
    /\ on_mode_change st3 (mode_change handle current_mode interval) = Done st4
    /\ upper_layer_posts st4
       = upper_layer_posts st
         ++ [(handler, ConnectionManagementCallbacks None (OnModeChange current_mode interval))].
Proof.
  intros Hlookup Hfree.
  unfold RegisterCallbacks, UnregisterCallbacks, check_and_get_connection, ASSERT.
  rewrite Hlookup. cbn [bind]. rewrite Hfree.
  rewrite bool_decide_eq_true_2 by reflexivity.
  eexists. eexists. eexists. eexists.
  split; [reflexivity |].
  unfold on_mode_change, mode_change, post_to_command_complete_handler, find_second. cbn.
  rewrite !lookup_insert_eq. cbn.
  split; [reflexivity |]. split; [reflexivity |].
  rewrite bool_decide_eq_true_2 by reflexivity.
  split; [reflexivity |]. cbn. rewrite lookup_insert_eq. cbn.
  split; reflexivity.
Qed.

Lemma registered_callbacks_receive_events_witness :
  exists st1 st2,
    RegisterCallbacks live_link 0x40 (Some 4%nat) (Some 6%nat) = Done st1
    /\ on_mode_change st1 (mode_change 0x40 2 0x0320) = Done st2
    /\ upper_layer_posts st2
       = [(6%nat, ConnectionManagementCallbacks (Some 4%nat) (OnModeChange 2 0x0320))].
Proof.
  destruct (registered_callbacks_receive_events live_link 0x40
              (set_disconnect (new_acl_connection peer) false 0 (Some 2%nat) (Some 7%nat))
              4%nat 6%nat 2 0x0320) as (st1 & st2 & _ & _ & Hregister & Hevent & Hposts & _);
    [vm_compute; reflexivity | reflexivity |].
  exists st1, st2. split; [exact Hregister |]. split; [exact Hevent | exact Hposts].
Defined.

(** When the controller refuses an Accept-Connection-Request the manager
    cancels the connection it had started to set up: the request was
    answered with the acceptance, and the failed status is answered with a
    Create-Connection-Cancel for the same peer. *)
Theorem refused_accept_is_cancelled
    (st : impl) (request : ConnectionRequestView.t)
    (accept_status : AcceptConnectionRequestStatusView.t) :
  ConnectionRequestView.IsValid request = true ->
  client_callbacks_ st <> None ->
  is_classic_link_already_connected st (ConnectionRequestView.GetBdAddr request) = false ->
  AcceptConnectionRequestStatusView.IsValid accept_status = true ->
  AcceptConnectionRequestStatusView.GetStatus accept_status <> SUCCESS ->
  let address := ConnectionRequestView.GetBdAddr request in
  exists st1 st2,
    on_incoming_connection st request = Done st1
    /\ on_accept_connection_status st1 address accept_status = Done st2
    /\ hci_commands st2
       = hci_commands st
         ++ [AcceptConnectionRequestBuilder address BECOME_MASTER;
             CreateConnectionCancelBuilder address]
    /\ address ∈ connecting_ st2.
Proof.
  intros Hvalid Hcallbacks Hfree Hstatus_valid Hstatus address.
  destruct (connection_request_answer st request Hvalid)
    as (st1 & Hdone & Hcommands & _ & Hconnecting).
  fold address in Hfree, Hcommands, Hconnecting.
  destruct (client_callbacks_ st); [| congruence].
  rewrite Hfree in Hcommands.
  assert (address ∈ connecting_ st1) as Hin
    by (rewrite Hconnecting; apply elem_of_union_l, elem_of_singleton; reflexivity).
  exists st1. eexists. split; [exact Hdone |].
  unfold on_accept_connection_status, ASSERT, cancel_connect. rewrite Hstatus_valid.
  destruct (Z.eqb_spec (AcceptConnectionRequestStatusView.GetStatus accept_status) SUCCESS);
    [contradiction |]. cbn [negb].
  rewrite bool_decide_eq_true_2 by exact Hin.
  split; [reflexivity |]. cbn. rewrite Hcommands, <- app_assoc. split; [reflexivity | exact Hin].
Qed.

Lemma refused_accept_is_cancelled_witness :
  let request :=
    {| ConnectionRequestView.IsValid := true;
       ConnectionRequestView.GetBdAddr := address_B;
       ConnectionRequestView.GetClassOfDevice := 0x1F00 |} in
  let refused :=
    {| AcceptConnectionRequestStatusView.IsValid := true;
       AcceptConnectionRequestStatusView.GetStatus := 0x0D |} in
  exists st1 st2,
    on_incoming_connection live_link request = Done st1
    /\ on_accept_connection_status st1 address_B refused = Done st2
    /\ hci_commands st2
       = [ReadDefaultLinkPolicySettingsBuilder;
          AcceptConnectionRequestBuilder address_B BECOME_MASTER;
          CreateConnectionCancelBuilder address_B].
Proof.
  intros request refused.
  destruct (refused_accept_is_cancelled live_link request refused)
    as (st1 & st2 & Hrequest & Hstatus & Hcommands & _);
    [reflexivity | discriminate | vm_compute; reflexivity | reflexivity | discriminate |].
  exists st1, st2. split; [exact Hrequest |]. split; [exact Hstatus | exact Hcommands].
Defined.

End ManagerProperties.

(** * Instances of the lemmas on the parts of the claims the code keeps *)

Section Instances.

Lemma short_first_enqueues_nothing_witness :
  let c := new_acl_connection peer in
  let p := fragment FIRST_AUTOMATICALLY_FLUSHABLE [x08; x00; x01] in
  on_incoming_packet c p = set_recombination c [x08; x00; x01] 1
  /\ incoming_queue_ (on_incoming_packet c p) = [].
Proof.
  intros c p.
  pose proof (short_first_enqueues_nothing c p eq_refl) as Hstep.
  assert (Cxx.size (GetPayload p) < 4) as Hshort by (vm_compute; reflexivity).
  specialize (Hstep Hshort). split; [exact Hstep | rewrite Hstep; reflexivity].
Defined.

Lemma dropped_acl_packet_witness :
  let debug :=
    {| IsValid := true; GetHandle := kQualcommDebugHandle;
       GetPacketBoundaryFlag := FIRST_AUTOMATICALLY_FLUSHABLE;
       GetPayload := [x00; x00; x01; x00] |} in
  let st := store_connection live_link kQualcommDebugHandle (new_acl_connection le_peer) in
  acl_connections_ st !! kQualcommDebugHandle = Some (new_acl_connection le_peer)
  /\ on_controller_input st (AclPacket debug) = Done st.
Proof.
  intros debug st. split; [vm_compute; reflexivity |].
  apply (dropped_acl_packet st debug). right; left. reflexivity.
Defined.

Lemma create_connection_queues_witness :
  let st := set_connecting live_link {[address_A]} in
  create_connection st address_B
  = Done (set_pending_outgoing_connections st [(address_B, create address_B)])
  /\ hci_commands (set_pending_outgoing_connections st [(address_B, create address_B)])
     = hci_commands st.
Proof.
  intros st. split; [| reflexivity].
  apply (create_connection_queues st address_B).
  - discriminate.
  - intros Hempty.
    assert (address_A ∈ connecting_ st) as Hin
      by exact (proj2 (elem_of_singleton (C := gset Address) address_A address_A) eq_refl).
    rewrite Hempty in Hin. exact (not_elem_of_empty (C := gset Address) address_A Hin).
Defined.

Lemma second_update_is_refused_witness :
  let st := store_connection le_link 0x41
              (set_connection_update (new_acl_connection le_peer) (Some 7%nat) (Some 3%nat)) in
  LeConnectionUpdate st 0x41 0x0018 0x0028 0 0x01F4 0x0002 0x0C00 (Some 8%nat) (Some 3%nat)
  = Done (false, st).
Proof.
  intros st.
  apply (second_update_is_refused st 0x41
           (set_connection_update (new_acl_connection le_peer) (Some 7%nat) (Some 3%nat))
           7%nat).
  - vm_compute. reflexivity.
  - reflexivity.
Defined.

End Instances.
